(** * Vedika chat front end: a shallow embedding and its verified properties

    The development follows the React component [AnimatedAIChat]
    (vedika/components/ui/animated-ai-chat.tsx) and the presentational
    component [ChatMessage] (vedika/components/ui/chat-message.tsx).

    - JavaScript strings are sequences of UTF-16 code units ([list N]).
    - The component's [useState] cells are the fields of the record [State].
    - An event handler is a function from the state committed by the latest
      render to the next state; the asynchronous [handleSendMessage] is cut
      at its single [await]: the part before it returns the request handed to
      [apiClient.query], the part after it consumes the outcome.
    - The retrieval back end is not part of the front-end sources; the
      [Retriever] module is written from the design document. *)

From Stdlib Require Import ZArith NArith QArith List String Ascii Bool Lia.
From Stdlib Require Import Reals Lra.
From Stdlib Require Import DecimalString Sorting.Sorted.
From stdpp Require Import base decidable option list countable gmap.

Open Scope Z_scope.

(** ** JavaScript strings *)

Module JS.

(** A string is its sequence of UTF-16 code units. *)
Definition jsstring : Type := list N.

(** An ASCII literal of the source, as code units. *)
Fixpoint lit (s : string) : jsstring :=
  match s with
  | EmptyString => []
  | String a s' => N_of_ascii a :: lit s'
  end.

(** ECMAScript [WhiteSpace] and [LineTerminator] code points, the ones
    [String.prototype.trim] strips. All of them lie in the basic plane. *)
Definition isWhiteSpace (c : N) : bool :=
  ((9 <=? c) && (c <=? 13)          (* TAB, LF, VT, FF, CR *)
   || (c =? 32)                     (* SPACE *)
   || (c =? 160)                    (* NO-BREAK SPACE *)
   || (c =? 5760)                   (* OGHAM SPACE MARK *)
   || (8192 <=? c) && (c <=? 8202)  (* EN QUAD .. HAIR SPACE *)
   || (c =? 8232) || (c =? 8233)    (* LINE / PARAGRAPH SEPARATOR *)
   || (c =? 8239)                   (* NARROW NO-BREAK SPACE *)
   || (c =? 8287)                   (* MEDIUM MATHEMATICAL SPACE *)
   || (c =? 12288)                  (* IDEOGRAPHIC SPACE *)
   || (c =? 65279))%N.              (* ZERO WIDTH NO-BREAK SPACE *)

Fixpoint dropWhile {A} (p : A -> bool) (l : list A) : list A :=
  match l with
  | [] => []
  | x :: l' => if p x then dropWhile p l' else l
  end.

Definition trimStart (s : jsstring) : jsstring := dropWhile isWhiteSpace s.
Definition trimEnd (s : jsstring) : jsstring :=
  rev (dropWhile isWhiteSpace (rev s)).

(** [s.trim()] *)
Definition trim (s : jsstring) : jsstring := trimStart (trimEnd s).

(** Truthiness of a string value: only the empty string is falsy. *)
Definition truthy (s : jsstring) : bool :=
  match s with [] => false | _ :: _ => true end.

(** [s.startsWith(p)] *)
Fixpoint startsWith (s p : jsstring) : bool :=
  match p, s with
  | [], _ => true
  | _ :: _, [] => false
  | b :: p', a :: s' => (a =? b)%N && startsWith s' p'
  end.

(** [s.includes(c)] for a one-unit search string. *)
Definition includesUnit (s : jsstring) (c : N) : bool :=
  existsb (fun a => (a =? c)%N) s.

(** Strict equality of two strings. *)
Definition eqb (a b : jsstring) : bool := bool_decide (a = b).

(** [n.toString()] for an integral number below 10^21 in magnitude, which
    covers every millisecond time stamp and every list index. *)
Definition numberToString (n : Z) : jsstring :=
  lit (NilZero.string_of_int (Z.to_int n)).

(** Values a JSON field of unknown shape may hold. *)
Inductive value : Type :=
| VNull
| VBool (b : bool)
| VNumber (q : Q)
| VString (s : jsstring).

End JS.

Import JS.

(** ** Data model (chat-message.tsx, lines 5-22, and the query interface) *)

Inductive MessageType : Type := user | assistant.

Definition isUserType (t : MessageType) : bool :=
  match t with user => true | assistant => false end.

(** One entry of [relevant_documents]. The inner [metadata] object has two
    well-known optional keys and is otherwise open, so it is a finite map
    from property names to values. *)
Record RelevantDocument : Type := mkDoc {
  doc_content : jsstring;
  doc_distance : Q;
  doc_metadata : option (gmap jsstring JS.value)
}.

Record MessageMetadata : Type := mkMeta {
  relevant_documents : option (list RelevantDocument);
  model_used : option jsstring
}.

(** [timestamp] is a [Date]: its time value in milliseconds. *)
Record ChatMessage : Type := mkMsg {
  id : jsstring;
  type : MessageType;
  content : jsstring;
  timestamp : Z;
  metadata : option MessageMetadata
}.

(** The object literal passed to [apiClient.query], lines 291-295. *)
Record QueryRequest : Type := mkReq {
  query : jsstring;
  max_results : Z;
  include_metadata : bool
}.

(** Modelled from the spec: the declaration of the value [apiClient.query]
    resolves to lives in [lib/api], which is not among the sources; the spec
    gives the response as [{answer, relevant_documents, model_used}]. *)
Record QueryResponse : Type := mkResp {
  answer : jsstring;
  resp_relevant_documents : list RelevantDocument;
  resp_model_used : jsstring
}.

(** What a rejected [apiClient.query] promise carries: an [Error] instance
    with its [message], or any other thrown value. *)
Inductive Thrown : Type :=
| ThrownError (message : jsstring)
| ThrownOther (v : JS.value).

Inductive Outcome : Type :=
| Fulfilled (response : QueryResponse)
| Rejected (err : Thrown).

(** The two readings of the system clock a handler may take:
    [Date.now()] and [new Date()]. *)
Record Clock : Type := mkClock {
  dateNow : Z;
  newDate : Z
}.

(** ** The component [AnimatedAIChat] *)

Module Chat.

Record CommandSuggestion : Type := mkCmd {
  label : jsstring;
  description : jsstring;
  prefix : jsstring
}.

(** Lines 150-175 (the icon nodes carry no behaviour). *)
Definition commandSuggestions : list CommandSuggestion :=
  [ mkCmd (lit "Chandrayaan") (lit "Learn about Chandrayaan missions")
          (lit "/chandrayaan");
    mkCmd (lit "Satellites") (lit "Explore ISRO satellites")
          (lit "/satellites");
    mkCmd (lit "Launch Vehicles") (lit "Learn about rockets")
          (lit "/launchers");
    mkCmd (lit "ISRO Centres") (lit "Explore ISRO facilities")
          (lit "/centres") ].

(** The [useState] cells, lines 135-146. *)
Record State : Type := mkState {
  value : jsstring;
  activeSuggestion : Z;
  showCommandPalette : bool;
  mousePosition : Z * Z;
  messages : list ChatMessage;
  isLoading : bool;
  error : option jsstring;
  inputFocused : bool
}.

Definition setValue (v : jsstring) (s : State) : State :=
  mkState v (activeSuggestion s) (showCommandPalette s) (mousePosition s)
          (messages s) (isLoading s) (error s) (inputFocused s).
Definition setActiveSuggestion (f : Z -> Z) (s : State) : State :=
  mkState (value s) (f (activeSuggestion s)) (showCommandPalette s)
          (mousePosition s) (messages s) (isLoading s) (error s)
          (inputFocused s).
Definition setShowCommandPalette (f : bool -> bool) (s : State) : State :=
  mkState (value s) (activeSuggestion s) (f (showCommandPalette s))
          (mousePosition s) (messages s) (isLoading s) (error s)
          (inputFocused s).
Definition setMousePosition (p : Z * Z) (s : State) : State :=
  mkState (value s) (activeSuggestion s) (showCommandPalette s) p
          (messages s) (isLoading s) (error s) (inputFocused s).
Definition setMessages (f : list ChatMessage -> list ChatMessage)
           (s : State) : State :=
  mkState (value s) (activeSuggestion s) (showCommandPalette s)
          (mousePosition s) (f (messages s)) (isLoading s) (error s)
          (inputFocused s).
Definition setIsLoading (b : bool) (s : State) : State :=
  mkState (value s) (activeSuggestion s) (showCommandPalette s)
          (mousePosition s) (messages s) b (error s) (inputFocused s).
Definition setError (e : option jsstring) (s : State) : State :=
  mkState (value s) (activeSuggestion s) (showCommandPalette s)
          (mousePosition s) (messages s) (isLoading s) e (inputFocused s).
Definition setInputFocused (b : bool) (s : State) : State :=
  mkState (value s) (activeSuggestion s) (showCommandPalette s)
          (mousePosition s) (messages s) (isLoading s) (error s) b.

Definition welcomeText : jsstring :=
  lit "Hello! I'm Vedika, your ISRO knowledge assistant. I can help you with information about Indian satellites, spacecraft, launch vehicles, and space missions. What would you like to know?".

Definition welcomeMessage (c : Clock) : ChatMessage :=
  mkMsg (lit "welcome") assistant welcomeText (newDate c) None.

(** *** handleSendMessage, lines 275-316 *)

Definition userMessage (c : Clock) (s : State) : ChatMessage :=
  mkMsg (numberToString (dateNow c)) user (trim (value s)) (newDate c) None.

(** The handler up to its [await]: the state it leaves behind and the
    argument of the [apiClient.query] call, if the call is made. *)
Definition handleSendMessage (c : Clock) (s : State)
  : State * option QueryRequest :=
  if truthy (trim (value s)) && negb (isLoading s) then
    let userMessage := userMessage c s in
    let s := setMessages (fun prev => prev ++ [userMessage]) s in
    let s := setValue [] s in
    let s := setIsLoading true s in
    let s := setError None s in
    (s, Some (mkReq (content userMessage) 5 true))
  else (s, None).

Definition assistantMessage (c : Clock) (response : QueryResponse)
  : ChatMessage :=
  mkMsg (numberToString (dateNow c + 1)) assistant (answer response)
        (newDate c)
        (Some (mkMeta (Some (resp_relevant_documents response))
                      (Some (resp_model_used response)))).

(** [err instanceof Error ? err.message : 'Failed to get response'] *)
Definition errorText (err : Thrown) : jsstring :=
  match err with
  | ThrownError message => message
  | ThrownOther _ => lit "Failed to get response"
  end.

(** The handler from the point where the awaited promise settles: the
    rest of the [try] block, or the [catch] block, then [finally]. *)
Definition handleSendMessage_settled (c : Clock) (o : Outcome) (s : State)
  : State :=
  let s :=
    match o with
    | Fulfilled response =>
        setMessages (fun prev => prev ++ [assistantMessage c response]) s
    | Rejected err => setError (Some (errorText err)) s
    end in
  setIsLoading false s.

(** *** clearChat, lines 343-351 *)
Definition clearChat (c : Clock) (s : State) : State :=
  setError None (setMessages (fun _ => [welcomeMessage c]) s).

(** *** selectCommandSuggestion, lines 318-341 *)
Definition suggestionQuery (p : jsstring) : jsstring :=
  if JS.eqb p (lit "/chandrayaan") then
    lit "Tell me about Chandrayaan missions"
  else if JS.eqb p (lit "/satellites") then
    lit "What satellites has ISRO launched?"
  else if JS.eqb p (lit "/launchers") then
    lit "What launch vehicles does ISRO use?"
  else if JS.eqb p (lit "/centres") then
    lit "What are the main ISRO centres and facilities?"
  else p ++ lit " ".

(** Reading [commandSuggestions[index]] past the end yields [undefined],
    and the property access on it throws: [None]. *)
Definition selectCommandSuggestion (index : nat) (s : State)
  : option State :=
  match commandSuggestions !! index with
  | Some selectedCommand =>
      Some (setShowCommandPalette (fun _ => false)
              (setValue (suggestionQuery (prefix selectedCommand)) s))
  | None => None
  end.

(** *** handleKeyDown, lines 236-265 *)
Inductive Key : Type :=
| ArrowDown | ArrowUp | Tab | Enter | Escape | OtherKey.

Definition suggestionCount : Z := Z.of_nat (length commandSuggestions).

Definition arrowDown (prev : Z) : Z :=
  if prev <? suggestionCount - 1 then prev + 1 else 0.
Definition arrowUp (prev : Z) : Z :=
  if prev >? 0 then prev - 1 else suggestionCount - 1.

Definition handleKeyDown (c : Clock) (key : Key) (shiftKey : bool)
           (s : State) : option (State * option QueryRequest) :=
  if showCommandPalette s then
    match key with
    | ArrowDown => Some (setActiveSuggestion arrowDown s, None)
    | ArrowUp => Some (setActiveSuggestion arrowUp s, None)
    | Tab | Enter =>
        if activeSuggestion s >=? 0 then
          match commandSuggestions !! Z.to_nat (activeSuggestion s) with
          | Some selectedCommand =>
              Some (setShowCommandPalette (fun _ => false)
                      (setValue (prefix selectedCommand ++ lit " ") s),
                    None)
          | None => None
          end
        else Some (s, None)
    | Escape => Some (setShowCommandPalette (fun _ => false) s, None)
    | OtherKey => Some (s, None)
    end
  else
    match key with
    | Enter =>
        if negb shiftKey then
          if truthy (trim (value s)) then Some (handleSendMessage c s)
          else Some (s, None)
        else Some (s, None)
    | _ => Some (s, None)
    end.

(** *** What the render shows of the state *)

(** [disabled={isLoading || !value.trim()}] on the Send button,
    line 570. *)
Definition sendDisabled (s : State) : bool :=
  isLoading s || negb (truthy (trim (value s))).

(** [{error && (... Error: {error} ...)}], lines 426-447: the text of the
    error panel when one is rendered. A JavaScript [&&] yields its left
    operand when that is falsy, and React renders neither [null] nor the
    empty string. *)
Definition errorPanel (s : State) : option jsstring :=
  match error s with
  | Some e => if truthy e then Some e else None
  | None => None
  end.

(** [{isLoading && (... Thinking... ...)}], lines 409-425. *)
Definition thinkingShown (s : State) : bool := isLoading s.

(** *** Effects, lines 177-205 *)

(** [l.findIndex(p)]: the first index whose element satisfies [p],
    or -1. *)
Fixpoint findIndexFrom {A} (p : A -> bool) (l : list A) (i : Z) : Z :=
  match l with
  | [] => -1
  | x :: l' => if p x then i else findIndexFrom p l' (i + 1)
  end.
Definition findIndex {A} (p : A -> bool) (l : list A) : Z :=
  findIndexFrom p l 0.

(** The effect with dependency [value], lines 177-193. *)
Definition valueEffect (s : State) : State :=
  if startsWith (value s) (lit "/") && negb (includesUnit (value s) 32)
  then
    let s := setShowCommandPalette (fun _ => true) s in
    let matchingSuggestionIndex :=
      findIndex (fun cmd => startsWith (prefix cmd) (value s))
                commandSuggestions in
    if matchingSuggestionIndex >=? 0
    then setActiveSuggestion (fun _ => matchingSuggestionIndex) s
    else setActiveSuggestion (fun _ => -1) s
  else setShowCommandPalette (fun _ => false) s.

(** The effect with dependency [messages.length], lines 195-205. *)
Definition welcomeEffect (c : Clock) (s : State) : State :=
  if (length (messages s) =? 0)%nat
  then setMessages (fun _ => [welcomeMessage c]) s
  else s.

(** A render commits [new] over [old]; an effect runs when one of its
    dependencies changed. Neither effect writes a dependency of the
    other, and the welcome effect makes its own guard false, so one pass
    reaches the state the component settles in. *)
Definition commit (c : Clock) (old new : State) : State :=
  let s := if JS.eqb (value old) (value new) then new
           else valueEffect new in
  if (length (messages old) =? length (messages s))%nat then s
  else welcomeEffect c s.

(** The [useState] initial values, then both effects of the mount. *)
Definition initialState : State :=
  mkState [] (-1) false (0, 0) [] false None false.
Definition mount (c : Clock) : State :=
  welcomeEffect c (valueEffect initialState).

(** *** The component with its environment

    Besides the committed state, the queries handed to [apiClient.query]
    whose promise has not settled yet. *)
Record World : Type := mkWorld {
  ui : State;
  inflight : list QueryRequest
}.

Inductive Event : Type :=
| Change (v : jsstring)              (* the textarea's onChange *)
| KeyDown (key : Key) (shiftKey : bool)
| ClickSend
| ClickClear
| ClickCommandButton
| ClickSuggestion (index : nat)
| MouseDownOutside
| DismissError
| Focus
| Blur
| MouseMove (x y : Z)
| Settle (i : nat) (o : Outcome).    (* the i-th pending promise settles *)

Definition issued (r : option QueryRequest) : list QueryRequest :=
  match r with Some q => [q] | None => [] end.

(** One event against the committed state. [None]: the event cannot
    occur (no such pending promise, no such suggestion entry). A handler
    that throws, and a click on the disabled Send button, leave the world
    as it is. *)
Definition step (c : Clock) (ev : Event) (w : World) : option World :=
  let s := ui w in
  let next s' := mkWorld (commit c s s') (inflight w) in
  match ev with
  | Change v => Some (next (setValue v s))
  | KeyDown key shiftKey =>
      match handleKeyDown c key shiftKey s with
      | Some (s', r) => Some (mkWorld (commit c s s') (inflight w ++ issued r))
      | None => Some w
      end
  | ClickSend =>
      if sendDisabled s then Some w
      else let '(s', r) := handleSendMessage c s in
           Some (mkWorld (commit c s s') (inflight w ++ issued r))
  | ClickClear => Some (next (clearChat c s))
  | ClickCommandButton => Some (next (setShowCommandPalette negb s))
  | ClickSuggestion index =>
      if (index <? length commandSuggestions)%nat then
        match selectCommandSuggestion index s with
        | Some s' => Some (next s')
        | None => Some w
        end
      else None
  | MouseDownOutside => Some (next (setShowCommandPalette (fun _ => false) s))
  | DismissError => Some (next (setError None s))
  | Focus => Some (next (setInputFocused true s))
  | Blur => Some (next (setInputFocused false s))
  | MouseMove x y => Some (next (setMousePosition (x, y) s))
  | Settle i o =>
      match inflight w !! i with
      | Some _ =>
          Some (mkWorld (commit c s (handleSendMessage_settled c o s))
                        (delete i (inflight w)))
      | None => None
      end
  end.

Fixpoint run (evs : list (Clock * Event)) (w : World) : option World :=
  match evs with
  | [] => Some w
  | (c, ev) :: evs' =>
      match step c ev w with
      | Some w' => run evs' w'
      | None => None
      end
  end.

Definition start (c : Clock) : World := mkWorld (mount c) [].

End Chat.

(** ** The component [ChatMessage] (chat-message.tsx, lines 28-112) *)

Module View.

(** One rendered source card, lines 66-88. *)
Record SourceCard : Type := mkCard {
  card_title : jsstring;
  card_content : jsstring;
  card_source_file : option jsstring
}.

(** The "Sources (n)" block, lines 61-90. *)
Record SourcesBlock : Type := mkSources {
  header_count : nat;
  cards : list SourceCard
}.

(** What one message renders to; the clock line under the bubble is
    formatted by the browser's locale and is left out. *)
Record MessageView : Type := mkView {
  alignedRight : bool;
  botAvatar : bool;
  bubbleText : jsstring;
  sources : option SourcesBlock;
  userAvatar : bool
}.

(** [doc.metadata?.key] *)
Definition metadataField (doc : RelevantDocument) (key : jsstring)
  : option JS.value :=
  match doc_metadata doc with
  | Some m => m !! key
  | None => None
  end.

(** Line 76: the record name when it is a non-empty string, else
    "Document " followed by the one-based position. *)
Definition cardTitle (index : nat) (doc : RelevantDocument) : jsstring :=
  let fallback := lit "Document " ++ numberToString (Z.of_nat index + 1) in
  match metadataField doc (lit "record_name") with
  | Some (VString s) => if truthy s then s else fallback
  | _ => fallback
  end.

(** Line 82: the source file when it is a non-empty string. *)
Definition cardSourceFile (doc : RelevantDocument) : option jsstring :=
  match metadataField doc (lit "source_file") with
  | Some (VString s) => if truthy s then Some s else None
  | _ => None
  end.

Definition renderCard (index : nat) (doc : RelevantDocument) : SourceCard :=
  mkCard (cardTitle index doc) (doc_content doc) (cardSourceFile doc).

(** [message.metadata?.relevant_documents]; an array is truthy even when
    it is empty. *)
Definition citedDocuments (message : ChatMessage)
  : option (list RelevantDocument) :=
  match metadata message with
  | Some md => relevant_documents md
  | None => None
  end.

Definition renderSources (message : ChatMessage) : option SourcesBlock :=
  if negb (isUserType (type message)) then
    match citedDocuments message with
    | Some docs =>
        Some (mkSources (length docs) (imap renderCard (take 3 docs)))
    | None => None
    end
  else None.

(** The documents of a message that no card shows. *)
Definition hiddenDocuments (message : ChatMessage)
  : list RelevantDocument :=
  match citedDocuments message with
  | Some docs => drop 3 docs
  | None => []
  end.

Definition ChatMessage (message : ChatMessage) : MessageView :=
  let isUser := isUserType (type message) in
  mkView isUser (negb isUser) (content message) (renderSources message)
         isUser.

End View.

(** ** The retriever of the design document *)

Module Retriever.

(** An embedding: a vector of real coordinates. The vectors of one index
    have one length; coordinates past the shorter of two vectors are not
    compared. *)
Definition Vector : Type := list R.

Fixpoint dot (a b : Vector) : R :=
  match a, b with
  | x :: a', y :: b' => (x * y + dot a' b')%R
  | _, _ => 0%R
  end.

Definition norm (a : Vector) : R := sqrt (dot a a).

Fixpoint squaredDifference (a b : Vector) : R :=
  match a, b with
  | x :: a', y :: b' => ((x - y) * (x - y) + squaredDifference a' b')%R
  | _, _ => 0%R
  end.

(** The two metrics the design allows for an index. *)
Inductive Metric : Type := Cosine | L2.

(** Modelled from the spec: the distance of section 4.2, "cosine or L2":
    one minus the cosine of the angle between the vectors, or the Euclidean
    distance. Division is total on the reals, with a quotient by zero equal
    to zero, so a vector of norm zero is at cosine distance one from every
    vector. *)
Definition distance (m : Metric) (a b : Vector) : R :=
  match m with
  | Cosine => (1 - dot a b / (norm a * norm b))%R
  | L2 => sqrt (squaredDifference a b)
  end.

(** An index entry: an embedding with its chunk's snippet and metadata. *)
Record IndexEntry : Type := mkEntry {
  entry_vector : Vector;
  entry_content : jsstring;
  entry_metadata : gmap jsstring JS.value
}.

(** A built index: its metric and the corpus in insertion order. *)
Record Index : Type := mkIndex {
  index_metric : Metric;
  index_entries : list IndexEntry
}.

(** One (content, distance, metadata) tuple of a retrieval result. *)
Record RetrievalEntry : Type := mkRetrieved {
  result_content : jsstring;
  result_distance : R;
  result_metadata : gmap jsstring JS.value
}.

Definition RetrievalResult : Type := list RetrievalEntry.

Definition scoreEntry (m : Metric) (queryVector : Vector) (e : IndexEntry)
  : RetrievalEntry :=
  mkRetrieved (entry_content e) (distance m queryVector (entry_vector e))
              (entry_metadata e).

(** [d] goes in front of the first element that is not closer than it. *)
Fixpoint insertByDistance (d : RetrievalEntry) (l : RetrievalResult)
  : RetrievalResult :=
  match l with
  | [] => [d]
  | x :: l' =>
      if Rle_dec (result_distance d) (result_distance x) then d :: l
      else x :: insertByDistance d l'
  end.

(** Ascending by distance; an entry inserted earlier stays in front of a
    later one at the same distance. *)
Fixpoint sortByDistance (l : RetrievalResult) : RetrievalResult :=
  match l with
  | [] => []
  | d :: l' => insertByDistance d (sortByDistance l')
  end.

(** [k] clamped to [1, corpus size]. *)
Definition clampK (k : Z) (corpusSize : nat) : nat :=
  Z.to_nat (Z.max 1 (Z.min k (Z.of_nat corpusSize))).

Section Search.

(** The embedding model, fixed per index build and left open by the
    design. *)
Variable embed : jsstring -> Vector.

(** Modelled from the spec: [search(queryText, k)] of section 4.2, whose
    implementation (the Python back end) is not among the sources. It
    embeds the query with the index's model, scores every entry with the
    index's metric, and returns the [k] entries of smallest distance, ties
    in insertion order, with [k] clamped to the corpus size; on an empty
    corpus the result is empty. *)
Definition search (index : Index) (queryText : jsstring) (k : Z)
  : RetrievalResult :=
  let queryVector := embed queryText in
  take (clampK k (length (index_entries index)))
       (sortByDistance
          (map (scoreEntry (index_metric index) queryVector)
               (index_entries index))).

End Search.

End Retriever.

(** ** The hook [useAutoResizeTextarea] (animated-ai-chat.tsx, lines 26-70) *)

Module AutoResize.

(** The textarea behind [textareaRef]: its inline [style.height] in pixels,
    and the [scrollHeight] the layout reports for a given inline height
    (the content and the width are those of the moment of the call). *)
Record Textarea : Type := mkTextarea {
  styleHeight : Z;
  scrollHeight : Z -> Z
}.

Definition setStyleHeight (h : Z) (t : Textarea) : Textarea :=
  mkTextarea h (scrollHeight t).

(** [adjustHeight(reset)], lines 32-54, on the element [textareaRef.current]
    ([None] for [null]); the result is the element after the call. A missing
    [reset] argument is [false], a missing [maxHeight] is [None]. *)
Definition adjustHeight (minHeight : Z) (maxHeight : option Z)
           (reset : bool) (current : option Textarea) : option Textarea :=
  match current with
  | None => None
  | Some textarea =>
      if reset then Some (setStyleHeight minHeight textarea)
      else
        let textarea := setStyleHeight minHeight textarea in
        let newHeight :=
          Z.max minHeight
                (match maxHeight with
                 | Some m => Z.min (scrollHeight textarea (styleHeight textarea)) m
                 | None => scrollHeight textarea (styleHeight textarea)
                 end) in
        Some (setStyleHeight newHeight textarea)
  end.

(** The hook as [AnimatedAIChat] configures it, lines 142-145. *)
Definition chatMinHeight : Z := 60.
Definition chatMaxHeight : option Z := Some 200.

End AutoResize.

(** ** Notions the properties are stated with *)

Import Chat.

(** The assistant messages of a conversation. *)
Definition assistantMessages (l : list ChatMessage) : list ChatMessage :=
  List.filter (fun m => negb (isUserType (type m))) l.

(** The active suggestion is -1 (none) or an index of the palette. *)
Definition activeOk (a : Z) : Prop := -1 <= a <= suggestionCount - 1.

(** The loading flag tells whether a query is in flight, and there is
    never more than that one. *)
Definition Inv (w : World) : Prop :=
  length (inflight w) = (if isLoading (ui w) then 1%nat else 0%nat) /\
  activeOk (activeSuggestion (ui w)).


(** The conversation opens with the welcome message, and no later message
    carries its id. *)
Definition welcomeFirst (l : list ChatMessage) : Prop :=
  exists c rest,
    l = welcomeMessage c :: rest /\
    Forall (fun m => id m <> lit "welcome") rest.

(** No error is recorded while a query is being waited for. *)
Definition quietWhileLoading (s : State) : Prop :=
  isLoading s = true -> error s = None.

(** A string without white space at either end. *)
Definition trimmed (s : jsstring) : Prop :=
  (forall c, head s = Some c -> isWhiteSpace c = false) /\
  (forall c, last s = Some c -> isWhiteSpace c = false).

(** What one event does to the conversation, the error and the loading
    flag: nothing, or one of five updates. *)
Inductive Update (c : Clock) (s s' : State) : Event -> Prop :=
| UpdNone ev :
    messages s' = messages s -> error s' = error s ->
    isLoading s' = isLoading s -> Update c s s' ev
| UpdSend ev :
    isLoading s = false ->
    messages s' = messages s ++ [userMessage c s] -> error s' = None ->
    isLoading s' = true -> Update c s s' ev
| UpdAnswer i response :
    messages s' = messages s ++ [assistantMessage c response] ->
    error s' = error s -> isLoading s' = false ->
    Update c s s' (Settle i (Fulfilled response))
| UpdFailure i err :
    messages s' = messages s -> error s' = Some (errorText err) ->
    isLoading s' = false -> Update c s s' (Settle i (Rejected err))
| UpdClear :
    messages s' = [welcomeMessage c] -> error s' = None ->
    isLoading s' = isLoading s -> Update c s s' ClickClear
| UpdDismiss :
    messages s' = messages s -> error s' = None ->
    isLoading s' = isLoading s -> Update c s s' DismissError.

(** * Properties *)

(** ** Strings *)

Lemma dropWhile_all {A} (p : A -> bool) (l : list A) :
  forallb p l = true -> dropWhile p l = [].
Proof.
  induction l as [|x l IH]; simpl; [reflexivity|].
  destruct (p x); simpl; [exact IH | discriminate].
Qed.

Lemma dropWhile_nil_inv {A} (p : A -> bool) (l : list A) :
  dropWhile p l = [] -> forallb p l = true.
Proof.
  induction l as [|x l IH]; simpl; [reflexivity|].
  destruct (p x); simpl; [exact IH | discriminate].
Qed.

Lemma forallb_rev {A} (p : A -> bool) (l : list A) :
  forallb p (rev l) = forallb p l.
Proof.
  induction l as [|x l IH]; simpl; [reflexivity|].
  rewrite forallb_app, IH. simpl. rewrite andb_true_r. apply andb_comm.
Qed.

(** A string trims to the empty string exactly when it consists of white
    space only. *)
Lemma trim_empty_iff (s : jsstring) :
  trim s = [] <-> forallb isWhiteSpace s = true.
Proof.
  unfold trim, trimStart, trimEnd. split.
  - intros H. apply dropWhile_nil_inv in H.
    rewrite forallb_rev in H.
    destruct (dropWhile isWhiteSpace (rev s)) as [|x t] eqn:E.
    + apply dropWhile_nil_inv in E. now rewrite forallb_rev in E.
    + assert (Hx : isWhiteSpace x = false).
      { clear H. revert E. generalize (rev s).
        induction l as [|y l IH]; simpl; [discriminate|].
        destruct (isWhiteSpace y) eqn:Ey; [exact IH|].
        intros [= -> _]. exact Ey. }
      simpl in H. rewrite Hx in H. discriminate.
  - intros H. rewrite (dropWhile_all _ (rev s)); [reflexivity|].
    now rewrite forallb_rev.
Qed.

Lemma truthy_false (s : jsstring) : truthy s = false <-> s = [].
Proof. destruct s; simpl; split; congruence. Qed.

Lemma truthy_true (s : jsstring) : truthy s = true <-> s <> [].
Proof. destruct s; simpl; split; congruence. Qed.

(** [trim] on a few inputs: inner white space stays, a no-break space and
    a line separator at the ends go, a zero-width space (U+200B) stays. *)
Example trim_inner_space :
  trim (lit "  PSLV  C37 ") = lit "PSLV  C37".
Proof. reflexivity. Qed.

Example trim_unicode_space :
  trim ([160; 8232] ++ lit "a" ++ [12288; 13; 10])%N = lit "a".
Proof. reflexivity. Qed.

Example trim_zero_width_space : trim [8203]%N = [8203]%N.
Proof. reflexivity. Qed.

Example numberToString_timestamp :
  numberToString 1756684800000 = lit "1756684800000".
Proof. reflexivity. Qed.

(** ** Renders and effects *)

Lemma commit_same (c : Clock) (s : State) : commit c s s = s.
Proof.
  unfold commit, JS.eqb. rewrite bool_decide_eq_true_2 by reflexivity.
  now rewrite Nat.eqb_refl.
Qed.

Lemma world_eta (w : World) : mkWorld (ui w) (inflight w) = w.
Proof. now destruct w. Qed.

(** A commit that changes neither [value] nor the number of messages runs
    no effect. *)
Lemma commit_no_effect (c : Clock) (old new : State) :
  value new = value old ->
  length (messages new) = length (messages old) ->
  commit c old new = new.
Proof.
  intros Hv Hm. unfold commit, JS.eqb.
  rewrite bool_decide_eq_true_2 by congruence.
  rewrite Hm. now rewrite Nat.eqb_refl.
Qed.

Lemma welcomeEffect_nonempty (c : Clock) (s : State) :
  messages s <> [] -> welcomeEffect c s = s.
Proof.
  unfold welcomeEffect. destruct (messages s); [congruence|reflexivity].
Qed.

Lemma valueEffect_frame (s : State) :
  value (valueEffect s) = value s /\
  messages (valueEffect s) = messages s /\
  isLoading (valueEffect s) = isLoading s /\
  error (valueEffect s) = error s.
Proof.
  unfold valueEffect.
  repeat match goal with |- context [if ?b then _ else _] => destruct b end;
    simpl; auto.
Qed.

(** ** Empty and white-space-only input (C1) *)

(** C1. When the input trims to the empty string, [handleSendMessage]
    calls [apiClient.query] not at all and returns the state it was given,
    so the message list, the loading flag and the error are as before; the
    same holds for a click on Send and for Enter in the textarea, and the
    set of queries in flight does not change. *)
Theorem blank_input_sends_nothing (c : Clock) (w : World) :
  trim (value (ui w)) = [] ->
  handleSendMessage c (ui w) = (ui w, None) /\
  step c ClickSend w = Some w /\
  (showCommandPalette (ui w) = false ->
   forall shiftKey, step c (KeyDown Enter shiftKey) w = Some w).
Proof.
  intros H.
  assert (Hs : handleSendMessage c (ui w) = (ui w, None)).
  { unfold handleSendMessage. now rewrite H. }
  split; [exact Hs|]. split.
  - unfold step, sendDisabled. rewrite H. simpl.
    now rewrite orb_true_r.
  - intros Hp shiftKey. unfold step, handleKeyDown. rewrite Hp, H. simpl.
    destruct shiftKey; simpl;
      now rewrite commit_same, app_nil_r, world_eta.
Qed.

Lemma blank_input_sends_nothing_witness :
  let w := mkWorld (setValue (lit "  ") (mount (mkClock 0 0))) [] in
  trim (value (ui w)) = [] /\
  handleSendMessage (mkClock 7 7) (ui w) = (ui w, None).
Proof.
  split; [reflexivity|].
  apply (blank_input_sends_nothing (mkClock 7 7)
           (mkWorld (setValue (lit "  ") (mount (mkClock 0 0))) [])).
  reflexivity.
Defined.

(** ** The request (C4) *)

Lemma handleSendMessage_request (c : Clock) (s : State) (r : QueryRequest) :
  snd (handleSendMessage c s) = Some r ->
  r = mkReq (trim (value s)) 5 true /\
  trim (value s) <> [] /\ isLoading s = false.
Proof.
  unfold handleSendMessage.
  destruct (truthy (trim (value s))) eqn:Ht; simpl; [|discriminate].
  destruct (isLoading s); simpl; [discriminate|].
  intros [= <-]. apply truthy_true in Ht. auto.
Qed.

Lemma handleKeyDown_request (c : Clock) (key : Key) (shiftKey : bool)
      (s s' : State) (r : QueryRequest) :
  handleKeyDown c key shiftKey s = Some (s', Some r) ->
  handleSendMessage c s = (s', Some r).
Proof.
  unfold handleKeyDown.
  destruct (showCommandPalette s).
  - destruct key; try discriminate.
    all: destruct (activeSuggestion s >=? 0); try discriminate.
    all: destruct (commandSuggestions !! _); discriminate.
  - destruct key; try discriminate.
    destruct (negb shiftKey); [|discriminate].
    destruct (truthy (trim (value s))); [|discriminate].
    now intros [= ->].
Qed.

Lemma In_delete {A} (i : nat) (l : list A) (x : A) :
  In x (delete i l) -> In x l.
Proof.
  revert i. induction l as [|y l IH]; intros [|i]; simpl; auto.
  intros [->|H]; eauto.
Qed.

(** C4. The argument of every [apiClient.query] call is the object
    [{query, max_results, include_metadata}] with the trimmed input as
    [query], [max_results] 5 (within 1..20) and [include_metadata] true;
    the query text is never empty. This holds for the handler and for
    every request an event of the component puts in flight. *)
Theorem request_shape (c : Clock) (s : State) (r : QueryRequest) :
  snd (handleSendMessage c s) = Some r ->
  r = mkReq (trim (value s)) 5 true /\
  query r = trim (value s) /\ query r <> [] /\
  max_results r = 5 /\ 1 <= max_results r <= 20 /\
  include_metadata r = true /\
  (forall ev w w' q,
      step c ev w = Some w' -> In q (inflight w') ->
      In q (inflight w) \/ q = mkReq (trim (value (ui w))) 5 true).
Proof.
  intros H. apply handleSendMessage_request in H as (-> & Hne & _).
  simpl. repeat split; auto; try lia.
  intros ev w w' q Hstep Hin.
  assert (Hsend : forall s' o,
             handleSendMessage c (ui w) = (s', o) ->
             In q (inflight w ++ issued o) ->
             In q (inflight w) \/ q = mkReq (trim (value (ui w))) 5 true).
  { intros s' o Hh Hq. apply in_app_or in Hq as [Hq|Hq]; [now left|].
    destruct o as [q'|]; simpl in Hq; [|contradiction].
    destruct Hq as [<-|[]]. right.
    apply (handleSendMessage_request c (ui w)). now rewrite Hh. }
  destruct ev; unfold step in Hstep.
  all: try (injection Hstep as <-; now left).
  - destruct (handleKeyDown c key shiftKey (ui w)) as [[s' [q'|]]|] eqn:Hk.
    + injection Hstep as <-. simpl in Hin.
      apply handleKeyDown_request in Hk. eauto.
    + injection Hstep as <-. simpl in Hin. rewrite app_nil_r in Hin.
      now left.
    + injection Hstep as <-. now left.
  - destruct (sendDisabled (ui w)); [injection Hstep as <-; now left|].
    destruct (handleSendMessage c (ui w)) as [s' o] eqn:Hh.
    injection Hstep as <-. simpl in Hin. eauto.
  - destruct (index <? length commandSuggestions)%nat; [|discriminate].
    destruct (selectCommandSuggestion index (ui w));
      injection Hstep as <-; now left.
  - destruct (inflight w !! i); [|discriminate].
    injection Hstep as <-. simpl in Hin. left. eapply In_delete; eauto.
Qed.

Lemma request_shape_witness :
  let s := setValue (lit " Tell me about Aryabhata ") (mount (mkClock 0 0)) in
  snd (handleSendMessage (mkClock 5 6) s)
  = Some (mkReq (lit "Tell me about Aryabhata") 5 true) /\
  max_results (mkReq (lit "Tell me about Aryabhata") 5 true) = 5.
Proof.
  split; [reflexivity|].
  apply (request_shape (mkClock 5 6)
           (setValue (lit " Tell me about Aryabhata ") (mount (mkClock 0 0)))
           (mkReq (lit "Tell me about Aryabhata") 5 true)).
  reflexivity.
Defined.

(** ** A successful round trip (C5) *)


Lemma assistantMessages_app (l1 l2 : list ChatMessage) :
  assistantMessages (l1 ++ l2) = assistantMessages l1 ++ assistantMessages l2.
Proof. apply List.filter_app. Qed.

Lemma handleSendMessage_sent (c : Clock) (s s1 : State) (r : QueryRequest) :
  handleSendMessage c s = (s1, Some r) ->
  s1 = mkState [] (activeSuggestion s) (showCommandPalette s)
               (mousePosition s) (messages s ++ [userMessage c s]) true None
               (inputFocused s).
Proof.
  unfold handleSendMessage.
  destruct (truthy (trim (value s)) && negb (isLoading s)); [|discriminate].
  now intros [= <- _].
Qed.

Lemma settled_commit (c : Clock) (o : Outcome) (s : State) :
  commit c s (handleSendMessage_settled c o s)
  = handleSendMessage_settled c o s.
Proof.
  destruct o as [response|err].
  - unfold commit, JS.eqb; simpl.
    rewrite bool_decide_eq_true_2 by reflexivity.
    destruct (_ =? _)%nat; [reflexivity|].
    apply welcomeEffect_nonempty. simpl. now destruct (messages s).
  - now apply commit_no_effect.
Qed.

(** C5. When the awaited query resolves, the handler appends one message
    and nothing else to the list; it is an assistant message whose content
    is the response's [answer] and whose metadata holds the response's
    [relevant_documents] and [model_used] as received. Over the whole round
    trip the list grows by the user message followed by that one assistant
    message, and the render that follows adds nothing. *)
Theorem success_appends_one_assistant_message
        (c : Clock) (response : QueryResponse) (s : State) :
  let s' := handleSendMessage_settled c (Fulfilled response) s in
  exists m : ChatMessage,
    messages s' = messages s ++ [m] /\
    type m = assistant /\
    content m = answer response /\
    metadata m = Some (mkMeta (Some (resp_relevant_documents response))
                              (Some (resp_model_used response))) /\
    isLoading s' = false /\
    (forall c0 s0 r,
        handleSendMessage c0 s0 = (s, Some r) ->
        messages s' = messages s0 ++ [userMessage c0 s0; m] /\
        length (assistantMessages (messages s'))
        = S (length (assistantMessages (messages s0)))) /\
    (forall w i w',
        ui w = s ->
        step c (Settle i (Fulfilled response)) w = Some w' ->
        ui w' = s' /\ S (length (inflight w')) = length (inflight w)).
Proof.
  exists (assistantMessage c response). simpl.
  repeat split.
  - intros. apply handleSendMessage_sent in H. subst s. simpl.
    now rewrite <- app_assoc.
  - apply handleSendMessage_sent in H. subst s. simpl.
    rewrite !assistantMessages_app, !length_app. simpl. lia.
  - unfold step in H0. destruct (inflight w !! i); [|discriminate].
    injection H0 as <-. simpl. rewrite H. apply settled_commit.
  - unfold step in H0. destruct (inflight w !! i) eqn:E; [|discriminate].
    injection H0 as <-. simpl.
    rewrite length_delete by eauto.
    apply lookup_lt_Some in E. lia.
Qed.

Lemma success_appends_one_assistant_message_witness :
  let c0 := mkClock 1000 1001 in
  let c1 := mkClock 2000 2001 in
  let s0 := setValue (lit "What is PSLV?") (mount c0) in
  let response := mkResp (lit "A launch vehicle.") [] (lit "qwen") in
  exists s r,
    handleSendMessage c0 s0 = (s, Some r) /\
    length (assistantMessages
              (messages (handleSendMessage_settled c1 (Fulfilled response) s)))
    = S (length (assistantMessages (messages s0))).
Proof.
  intros c0 c1 s0 response.
  eexists; eexists; split; [reflexivity|].
  destruct (success_appends_one_assistant_message c1 response
              (fst (handleSendMessage c0 s0)))
    as (m & _ & _ & _ & _ & _ & Hround & _).
  exact (proj2 (Hround c0 s0 _ eq_refl)).
Defined.

(** ** A failed query (C2) *)

(** When the awaited query rejects, the handler leaves the message list as
    it was (no assistant message is appended), sets the error to the thrown
    [Error]'s message, or to "Failed to get response" for any other thrown
    value, and clears the loading flag; the render that follows runs no
    effect, and it shows the error panel with that text whenever the text
    is not empty. *)
Theorem failure_sets_error (c : Clock) (err : Thrown) (s : State) :
  let s' := handleSendMessage_settled c (Rejected err) s in
  messages s' = messages s /\
  assistantMessages (messages s') = assistantMessages (messages s) /\
  error s' = Some (errorText err) /\
  (forall message, err = ThrownError message -> errorText err = message) /\
  (forall v, err = ThrownOther v ->
             errorText err = lit "Failed to get response") /\
  isLoading s' = false /\
  commit c s s' = s' /\
  (errorText err <> [] -> errorPanel s' = Some (errorText err)).
Proof.
  simpl. repeat split.
  - now intros message ->.
  - now intros v ->.
  - apply (settled_commit c (Rejected err)).
  - intros H. unfold errorPanel. simpl.
    apply truthy_true in H. now rewrite H.
Qed.

Lemma failure_sets_error_witness :
  let s := fst (handleSendMessage (mkClock 10 11)
                  (setValue (lit "What is PSLV?") (mount (mkClock 0 0)))) in
  let err := ThrownError (lit "HTTP error! status: 502") in
  errorText err <> [] /\
  errorPanel (handleSendMessage_settled (mkClock 20 21) (Rejected err) s)
  = Some (lit "HTTP error! status: 502").
Proof.
  intros s err. split; [discriminate|].
  apply (failure_sets_error (mkClock 20 21) err s). discriminate.
Defined.

(** C2. A failed query is to end with a visible error message. For a
    rejection with an [Error] whose message is the empty string the handler
    stores the empty string as the error; the render treats it like [null]
    and shows no error panel, although no assistant message was appended
    and the query failed. The other rejection path substitutes a fixed
    text and is always shown. *)
Theorem failure_with_empty_message_shows_no_panel :
  let s := fst (handleSendMessage (mkClock 10 11)
                  (setValue (lit "What is PSLV?") (mount (mkClock 0 0)))) in
  let s' := handleSendMessage_settled (mkClock 20 21)
              (Rejected (ThrownError [])) s in
  error s' = Some [] /\ errorPanel s' = None /\
  ~ (forall c err s0,
        is_Some (errorPanel (handleSendMessage_settled c (Rejected err) s0))).
Proof.
  intros s s'. split; [reflexivity|]. split; [reflexivity|].
  intros H.
  destruct (H (mkClock 20 21) (ThrownError []) s) as [x Hx].
  discriminate Hx.
Qed.

(** ** clearChat (C10) *)

(** C10. [clearChat] replaces the message list by the single assistant
    message with id "welcome", sets the error to null, and changes no other
    cell of the component: the input value, the loading flag, the command
    palette, the active suggestion, the focus flag and the mouse position
    are as before. The render that follows runs no further update, and the
    queries in flight are untouched. *)
Theorem clearChat_resets_conversation (c : Clock) (w : World) :
  let s := ui w in
  clearChat c s
  = mkState (value s) (activeSuggestion s) (showCommandPalette s)
            (mousePosition s) [welcomeMessage c] (isLoading s) None
            (inputFocused s) /\
  (exists m, messages (clearChat c s) = [m] /\
             id m = lit "welcome" /\ type m = assistant /\
             content m = welcomeText /\ metadata m = None) /\
  error (clearChat c s) = None /\
  value (clearChat c s) = value s /\
  isLoading (clearChat c s) = isLoading s /\
  activeSuggestion (clearChat c s) = activeSuggestion s /\
  showCommandPalette (clearChat c s) = showCommandPalette s /\
  inputFocused (clearChat c s) = inputFocused s /\
  mousePosition (clearChat c s) = mousePosition s /\
  step c ClickClear w = Some (mkWorld (clearChat c s) (inflight w)).
Proof.
  split; [reflexivity|]. split.
  { exists (welcomeMessage c). now simpl. }
  repeat split.
  unfold step. f_equal. f_equal.
  unfold commit, JS.eqb. simpl.
  rewrite bool_decide_eq_true_2 by reflexivity.
  destruct (_ =? _)%nat; reflexivity.
Qed.

(** ** Reachable states *)


Lemma findIndexFrom_range {A} (p : A -> bool) (l : list A) (i : Z) :
  findIndexFrom p l i = -1 \/
  i <= findIndexFrom p l i < i + Z.of_nat (length l).
Proof.
  revert i. induction l as [|x l IH]; intros i; simpl; [now left|].
  destruct (p x); [right; lia|].
  destruct (IH (i + 1)) as [H|H]; [now left | right; lia].
Qed.

Lemma valueEffect_active (s : State) :
  activeOk (activeSuggestion s) -> activeOk (activeSuggestion (valueEffect s)).
Proof.
  intros H. unfold valueEffect.
  destruct (_ && _); [|exact H].
  unfold findIndex. cbn [value setShowCommandPalette].
  set (p := fun cmd => startsWith (prefix cmd) (value s)).
  pose proof (findIndexFrom_range p commandSuggestions 0) as E.
  change (Z.of_nat (length commandSuggestions)) with 4 in E.
  set (r := findIndexFrom p commandSuggestions 0) in *. clearbody r.
  destruct (r >=? 0) eqn:G; unfold setActiveSuggestion, activeOk;
    cbn [activeSuggestion]; change suggestionCount with 4; lia.
Qed.

Lemma commit_isLoading (c : Clock) (old new : State) :
  isLoading (commit c old new) = isLoading new.
Proof.
  unfold commit, welcomeEffect.
  repeat match goal with |- context [if ?b then _ else _] => destruct b end;
    simpl; try apply valueEffect_frame; reflexivity.
Qed.

Lemma commit_active (c : Clock) (old new : State) :
  activeOk (activeSuggestion new) ->
  activeOk (activeSuggestion (commit c old new)).
Proof.
  intros H. unfold commit, welcomeEffect.
  repeat match goal with |- context [if ?b then _ else _] => destruct b end;
    simpl; auto using valueEffect_active.
Qed.

Lemma arrowDown_range (prev : Z) :
  activeOk prev -> 0 <= arrowDown prev <= suggestionCount - 1.
Proof.
  unfold activeOk, arrowDown. change suggestionCount with 4.
  intros H. destruct (_ <? _) eqn:E; lia.
Qed.

Lemma arrowUp_range (prev : Z) :
  activeOk prev -> 0 <= arrowUp prev <= suggestionCount - 1.
Proof.
  unfold activeOk, arrowUp. change suggestionCount with 4.
  intros H. destruct (_ >? _) eqn:E; lia.
Qed.

Lemma handleSendMessage_frame (c : Clock) (s s' : State)
      (o : option QueryRequest) :
  handleSendMessage c s = (s', o) ->
  activeSuggestion s' = activeSuggestion s /\
  match o with
  | Some _ => isLoading s = false /\ isLoading s' = true
  | None => s' = s
  end.
Proof.
  unfold handleSendMessage.
  destruct (truthy (trim (value s))); simpl.
  - destruct (isLoading s) eqn:E; simpl; intros [= <- <-]; simpl; auto.
  - intros [= <- <-]. auto.
Qed.

Lemma handleKeyDown_frame (c : Clock) (key : Key) (shiftKey : bool)
      (s s' : State) (o : option QueryRequest) :
  handleKeyDown c key shiftKey s = Some (s', o) ->
  (activeOk (activeSuggestion s) -> activeOk (activeSuggestion s')) /\
  match o with
  | Some _ => isLoading s = false /\ isLoading s' = true
  | None => isLoading s' = isLoading s
  end.
Proof.
  unfold handleKeyDown. intros H.
  assert (Hsend : forall s1 o1,
             handleSendMessage c s = (s1, o1) -> (s1, o1) = (s', o) ->
             (activeOk (activeSuggestion s) -> activeOk (activeSuggestion s'))
             /\ match o with
                | Some _ => isLoading s = false /\ isLoading s' = true
                | None => isLoading s' = isLoading s
                end).
  { intros s1 o1 Hh [= -> ->].
    apply handleSendMessage_frame in Hh as [Ha Ho]. rewrite Ha.
    split; [auto|]. destruct o; [exact Ho | now rewrite Ho]. }
  destruct (showCommandPalette s).
  - destruct key.
    + injection H as <- <-. simpl. split; [|reflexivity].
      intros Ha. pose proof (arrowDown_range _ Ha). unfold activeOk. lia.
    + injection H as <- <-. simpl. split; [|reflexivity].
      intros Ha. pose proof (arrowUp_range _ Ha). unfold activeOk. lia.
    + destruct (activeSuggestion s >=? 0);
        [destruct (commandSuggestions !! _); [|discriminate]|];
        injection H as <- <-; simpl; auto.
    + destruct (activeSuggestion s >=? 0);
        [destruct (commandSuggestions !! _); [|discriminate]|];
        injection H as <- <-; simpl; auto.
    + injection H as <- <-; simpl; auto.
    + injection H as <- <-; simpl; auto.
  - destruct key; try (injection H as <- <-; simpl; auto; fail).
    destruct (negb shiftKey); [|injection H as <- <-; simpl; auto].
    destruct (truthy (trim (value s))); [|injection H as <- <-; simpl; auto].
    destruct (handleSendMessage c s) as [s1 o1] eqn:Hh.
    injection H as H1 H2. eapply Hsend; eauto. congruence.
Qed.

Lemma Inv_start (c : Clock) : Inv (start c).
Proof. split; [reflexivity|]. vm_compute. split; discriminate. Qed.

Lemma Inv_step (c : Clock) (ev : Event) (w w' : World) :
  Inv w -> step c ev w = Some w' -> Inv w'.
Proof.
  intros [Hq Ha] Hstep.
  assert (Hsame : forall s',
             isLoading s' = isLoading (ui w) ->
             activeOk (activeSuggestion s') ->
             Inv (mkWorld (commit c (ui w) s') (inflight w))).
  { intros s' Hl Hact. split; simpl.
    - now rewrite commit_isLoading, Hl.
    - now apply commit_active. }
  assert (Hiss : forall s' o,
             (activeOk (activeSuggestion (ui w)) ->
              activeOk (activeSuggestion s')) ->
             match o with
             | Some _ => isLoading (ui w) = false /\ isLoading s' = true
             | None => isLoading s' = isLoading (ui w)
             end ->
             Inv (mkWorld (commit c (ui w) s') (inflight w ++ issued o))).
  { intros s' o Hact Ho. split; simpl.
    - rewrite commit_isLoading, length_app.
      destruct o as [q|]; simpl.
      + destruct Ho as [H0 H1]. rewrite H0 in Hq. rewrite H1, Hq.
        reflexivity.
      + rewrite Ho, Hq. lia.
    - apply commit_active; auto. }
  destruct ev; unfold step in Hstep.
  all: try (injection Hstep as <-; apply Hsame; simpl; auto; fail).
  - destruct (handleKeyDown c key shiftKey (ui w)) as [[s' o]|] eqn:Hk.
    + injection Hstep as <-.
      apply handleKeyDown_frame in Hk as [Hact Ho]. now apply Hiss.
    + injection Hstep as <-. now split.
  - destruct (sendDisabled (ui w)); [injection Hstep as <-; now split|].
    destruct (handleSendMessage c (ui w)) as [s' o] eqn:Hh.
    injection Hstep as <-.
    apply handleSendMessage_frame in Hh as [Hact Ho].
    apply Hiss; [now rewrite Hact|].
    destruct o; [exact Ho | now rewrite Ho].
  - destruct (_ <? _)%nat; [|discriminate].
    unfold selectCommandSuggestion in Hstep.
    destruct (commandSuggestions !! index).
    + injection Hstep as <-. apply Hsame; simpl; auto.
    + injection Hstep as <-. now split.
  - destruct (inflight w !! i) eqn:E; [|discriminate].
    injection Hstep as <-. split; simpl.
    + rewrite commit_isLoading. destruct o; simpl.
      all: rewrite length_delete by eauto.
      all: apply lookup_lt_Some in E.
      all: destruct (isLoading (ui w)); lia.
    + apply commit_active. now destruct o.
Qed.

Lemma Inv_run (evs : list (Clock * Event)) (w w' : World) :
  Inv w -> run evs w = Some w' -> Inv w'.
Proof.
  revert w. induction evs as [|[c ev] evs IH]; intros w Hw; simpl.
  - now intros [= <-].
  - destruct (step c ev w) as [w1|] eqn:E; [|discriminate].
    apply IH. eapply Inv_step; eauto.
Qed.

(** ** One query at a time (C3) *)

(** C3. In every state the component reaches from its mount, at most one
    query is in flight, and one is in flight exactly when [isLoading] is
    true. While [isLoading] is true the Send button is disabled,
    [handleSendMessage] returns without calling [apiClient.query], and no
    event adds a query; when the pending query settles, on success and on
    failure alike, [isLoading] is false again and nothing is in flight. *)
Theorem one_query_in_flight
        (c0 : Clock) (evs : list (Clock * Event)) (w : World) :
  run evs (start c0) = Some w ->
  (length (inflight w) <= 1)%nat /\
  (isLoading (ui w) = true <-> inflight w <> []) /\
  (isLoading (ui w) = true ->
   sendDisabled (ui w) = true /\
   forall c,
     handleSendMessage c (ui w) = (ui w, None) /\
     forall ev w', step c ev w = Some w' ->
                   (length (inflight w') <= length (inflight w))%nat) /\
  (forall c o, isLoading (handleSendMessage_settled c o (ui w)) = false) /\
  (forall c i o w',
      step c (Settle i o) w = Some w' ->
      isLoading (ui w') = false /\ inflight w' = []).
Proof.
  intros Hrun.
  pose proof (Inv_run evs _ _ (Inv_start c0) Hrun) as HI.
  destruct HI as [Hq Ha]. repeat split.
  - destruct (isLoading (ui w)); lia.
  - intros Hl E. rewrite Hl, E in Hq. discriminate.
  - intros Hne. destruct (isLoading (ui w)); [reflexivity|].
    destruct (inflight w); [congruence|discriminate].
  - unfold sendDisabled. now rewrite H.
  - unfold handleSendMessage. rewrite H. now rewrite andb_false_r.
  - intros ev w' Hstep.
    destruct (Inv_step c ev w w' (conj Hq Ha) Hstep) as [Hq' _].
    rewrite Hq, Hq', H. destruct (isLoading (ui w')); lia.
  - destruct (Inv_step c (Settle i o) w w' (conj Hq Ha) H) as [Hq' _].
    unfold step in H. destruct (inflight w !! i); [|discriminate].
    injection H as <-. simpl. now rewrite commit_isLoading.
  - destruct (Inv_step c (Settle i o) w w' (conj Hq Ha) H) as [Hq' _].
    unfold step in H. destruct (inflight w !! i); [|discriminate].
    injection H as <-. simpl in *. rewrite commit_isLoading in Hq'.
    simpl in Hq'. now apply nil_length_inv.
Qed.

Lemma one_query_in_flight_witness :
  let c := mkClock 100 101 in
  exists w,
    run [(c, Change (lit "What is PSLV?")); (c, ClickSend);
         (c, Change (lit "And GSLV?")); (c, KeyDown Enter false);
         (c, ClickSend)]
        (start c) = Some w /\
    (length (inflight w) <= 1)%nat.
Proof.
  intros c. eexists. split; [vm_compute; reflexivity|].
  apply (one_query_in_flight c
           [(c, Change (lit "What is PSLV?")); (c, ClickSend);
            (c, Change (lit "And GSLV?")); (c, KeyDown Enter false);
            (c, ClickSend)]).
  vm_compute. reflexivity.
Defined.

(** ** The command palette (C9) *)

(** C9. In every state the component reaches with the command palette
    shown, ArrowDown and ArrowUp leave [activeSuggestion] within
    0 .. (number of suggestions - 1): ArrowDown moves one down and from the
    last suggestion to index 0, ArrowUp moves one up and from index 0 (or
    from no selection) to the last index. Nothing else of the state
    changes. *)
Theorem arrow_keys_cycle_suggestions
        (c0 : Clock) (evs : list (Clock * Event)) (w : World) :
  run evs (start c0) = Some w ->
  showCommandPalette (ui w) = true ->
  forall c shiftKey,
    let a := activeSuggestion (ui w) in
    let wd := mkWorld (setActiveSuggestion arrowDown (ui w)) (inflight w) in
    let wu := mkWorld (setActiveSuggestion arrowUp (ui w)) (inflight w) in
    step c (KeyDown ArrowDown shiftKey) w = Some wd /\
    step c (KeyDown ArrowUp shiftKey) w = Some wu /\
    0 <= activeSuggestion (ui wd) <= suggestionCount - 1 /\
    0 <= activeSuggestion (ui wu) <= suggestionCount - 1 /\
    (a = suggestionCount - 1 -> activeSuggestion (ui wd) = 0) /\
    (a < suggestionCount - 1 -> activeSuggestion (ui wd) = a + 1) /\
    (a <= 0 -> activeSuggestion (ui wu) = suggestionCount - 1) /\
    (a > 0 -> activeSuggestion (ui wu) = a - 1).
Proof.
  intros Hrun Hp c shiftKey a wd wu.
  pose proof (Inv_run evs _ _ (Inv_start c0) Hrun) as [_ Ha].
  fold a in Ha.
  split; [|split].
  - unfold step, handleKeyDown. rewrite Hp.
    rewrite commit_no_effect by reflexivity. now rewrite app_nil_r.
  - unfold step, handleKeyDown. rewrite Hp.
    rewrite commit_no_effect by reflexivity. now rewrite app_nil_r.
  - subst wd wu. cbn [ui setActiveSuggestion activeSuggestion]. fold a.
    pose proof (arrowDown_range a Ha). pose proof (arrowUp_range a Ha).
    unfold arrowDown, arrowUp in *. revert H H0 Ha. unfold activeOk.
    change suggestionCount with 4.
    destruct (a <? 4 - 1) eqn:E1; destruct (a >? 0) eqn:E2; lia.
Qed.

Lemma arrow_keys_cycle_suggestions_witness :
  let c := mkClock 100 101 in
  exists w,
    run [(c, Change (lit "/l")); (c, KeyDown ArrowDown false)] (start c)
    = Some w /\
    showCommandPalette (ui w) = true /\
    activeSuggestion (ui w) = 3 /\
    step c (KeyDown ArrowDown false) w
    = Some (mkWorld (setActiveSuggestion arrowDown (ui w)) (inflight w)).
Proof.
  intros c. eexists. split; [vm_compute; reflexivity|].
  split; [reflexivity|]. split; [reflexivity|].
  apply (arrow_keys_cycle_suggestions c
           [(c, Change (lit "/l")); (c, KeyDown ArrowDown false)]);
    vm_compute; reflexivity.
Defined.

(** ** Source cards (C8) *)

Lemma card_contents (docs : list RelevantDocument) :
  View.card_content <$> imap View.renderCard docs = doc_content <$> docs.
Proof.
  rewrite fmap_imap. apply (imap_const doc_content).
Qed.

(** C8. For an assistant message that carries [relevant_documents], the
    sources block is rendered; its header shows the full number of
    documents, while the cards are those of the first three documents only
    (fewer when fewer were returned), in order. The documents from the
    fourth on appear in no card: with up to five documents returned, up to
    two of them, and with exactly five, exactly two. *)
Theorem sources_show_first_three
        (message : ChatMessage) (docs : list RelevantDocument) :
  type message = assistant ->
  View.citedDocuments message = Some docs ->
  exists block : View.SourcesBlock,
    View.sources (View.ChatMessage message) = Some block /\
    View.header_count block = length docs /\
    View.cards block = imap View.renderCard (take 3 docs) /\
    View.card_content <$> View.cards block = doc_content <$> take 3 docs /\
    length (View.cards block) = Nat.min 3 (length docs) /\
    (length (View.cards block) <= 3)%nat /\
    docs = take 3 docs ++ View.hiddenDocuments message /\
    length (View.hiddenDocuments message) = (length docs - 3)%nat /\
    ((length docs <= 5)%nat ->
     (length (View.hiddenDocuments message) <= 2)%nat) /\
    (length docs = 5%nat ->
     View.header_count block = 5%nat /\
     length (View.cards block) = 3%nat /\
     length (View.hiddenDocuments message) = 2%nat).
Proof.
  intros Ht Hd.
  exists (View.mkSources (length docs) (imap View.renderCard (take 3 docs))).
  assert (Hlen : length (imap View.renderCard (take 3 docs))
                 = Nat.min 3 (length docs)).
  { now rewrite length_imap, length_take. }
  assert (Hhid : View.hiddenDocuments message = drop 3 docs).
  { unfold View.hiddenDocuments. now rewrite Hd. }
  rewrite Hhid, length_drop.
  cbn [View.header_count View.cards].
  split.
  { unfold View.ChatMessage, View.renderSources. cbn [View.sources].
    now rewrite Ht, Hd. }
  split; [reflexivity|]. split; [reflexivity|].
  split; [apply card_contents|].
  split; [exact Hlen|].
  split; [lia|].
  split; [now rewrite take_drop|].
  split; [reflexivity|].
  split; [lia|].
  intros H5. rewrite Hlen, H5. repeat split.
Qed.

Lemma sources_show_first_three_witness :
  let doc (n : string) := mkDoc (lit n) (1 # 4) None in
  let docs := [doc "a"; doc "b"; doc "c"; doc "d"; doc "e"]%string in
  let message :=
    mkMsg (lit "1") assistant (lit "answer") 0
          (Some (mkMeta (Some docs) (Some (lit "qwen")))) in
  type message = assistant /\
  View.citedDocuments message = Some docs /\
  exists block : View.SourcesBlock,
    View.sources (View.ChatMessage message) = Some block /\
    View.header_count block = 5%nat /\
    length (View.cards block) = 3%nat.
Proof.
  intros doc docs message.
  split; [reflexivity|]. split; [reflexivity|].
  destruct (sources_show_first_three message docs eq_refl eq_refl)
    as (block & Hs & _ & _ & _ & _ & _ & _ & _ & _ & H5).
  exists block. split; [exact Hs|].
  destruct (H5 eq_refl) as (Hh & Hc & _). now split.
Defined.

(** ** The retriever's result *)









(** *** The two metrics are non-negative *)


Lemma squaredDifference_nonneg (a b : Retriever.Vector) :
  (0 <= Retriever.squaredDifference a b)%R.
Proof.
  revert b. induction a as [|x a IH]; intros [|y b]; simpl; try lra.
  pose proof (Rle_0_sqr (x - y)) as H. unfold Rsqr in H.
  specialize (IH b). lra.
Qed.





Section RetrieverProperties.

Variable embed : jsstring -> Retriever.Vector.


(** On an empty corpus the result is the empty sequence, whatever the
    metric, the query and [k]. *)
Lemma search_empty_corpus (m : Retriever.Metric) (queryText : jsstring)
      (k : Z) :
  Retriever.search embed (Retriever.mkIndex m []) queryText k = [].
Proof. unfold Retriever.search. simpl. apply take_nil. Qed.

(** The result has as many entries as asked for, within the corpus. *)
Lemma search_length (index : Retriever.Index) (queryText : jsstring) (k : Z) :
  length (Retriever.search embed index queryText k)
  = Nat.min (Retriever.clampK k (length (Retriever.index_entries index)))
            (length (Retriever.index_entries index)).
Proof.
  unfold Retriever.search. rewrite length_take. f_equal.
  rewrite <- (length_map (Retriever.scoreEntry (Retriever.index_metric index)
                                              (embed queryText))).
  generalize (map (Retriever.scoreEntry (Retriever.index_metric index)
                                        (embed queryText))
                  (Retriever.index_entries index)).
  intros scored. induction scored as [|d l IH]; simpl; [reflexivity|].
  rewrite <- IH. generalize (Retriever.sortByDistance l).
  intros sorted. induction sorted as [|x l0 IH0]; simpl; [reflexivity|].
  destruct (Rle_dec _ _); simpl; [reflexivity | now rewrite IH0].
Qed.

End RetrieverProperties.

(** A run of [search]: with the Euclidean metric and a query embedded at
    the origin, the entry at distance one comes before the entry at
    distance three, although it was inserted after it. *)
Example search_nearest_first :
  let far := Retriever.mkEntry [3%R] (lit "far") ∅ in
  let near := Retriever.mkEntry [1%R] (lit "near") ∅ in
  Retriever.result_content
    <$> Retriever.search (fun _ => [0%R])
          (Retriever.mkIndex Retriever.L2 [far; near]) (lit "q") 5
  = [lit "near"; lit "far"].
Proof.
  cbv zeta. unfold Retriever.search. cbn -[Retriever.distance lit].
  destruct (Rle_dec _ _) as [H|H]; [exfalso | reflexivity].
  cbn [Retriever.distance Retriever.squaredDifference] in H.
  apply (Rle_not_lt _ _ H). apply sqrt_lt_1_alt. lra.
Qed.

(** * Further properties of the components *)

(** ** What is sent is the input without its surrounding white space *)

Lemma dropWhile_split {A} (p : A -> bool) (l : list A) :
  exists pre, l = pre ++ dropWhile p l /\ forallb p pre = true.
Proof.
  induction l as [|x l (pre & E & Hp)]; simpl.
  - now exists [].
  - destruct (p x) eqn:Hx.
    + exists (x :: pre). simpl. rewrite Hx, Hp. split; [congruence|reflexivity].
    + now exists [].
Qed.

Lemma dropWhile_head {A} (p : A -> bool) (l : list A) (x : A) :
  head (dropWhile p l) = Some x -> p x = false.
Proof.
  induction l as [|y l IH]; simpl; [discriminate|].
  destruct (p y) eqn:Hy; [exact IH|]. simpl. now intros [= <-].
Qed.

Lemma last_rev_head {A} (l : list A) : last (rev l) = head l.
Proof. destruct l as [|x l]; simpl; [reflexivity | apply last_snoc]. Qed.

(** [trim] removes a white-space prefix and a white-space suffix, and
    nothing else. *)
Lemma trim_split (s : jsstring) :
  exists pre post,
    s = pre ++ trim s ++ post /\
    forallb isWhiteSpace pre = true /\ forallb isWhiteSpace post = true.
Proof.
  unfold trim, trimStart, trimEnd.
  destruct (dropWhile_split isWhiteSpace (rev s)) as (p1 & E1 & H1).
  destruct (dropWhile_split isWhiteSpace
              (rev (dropWhile isWhiteSpace (rev s)))) as (p2 & E2 & H2).
  exists p2, (rev p1). split; [|split].
  - rewrite <- (rev_involutive s), E1 at 1.
    rewrite rev_app_distr. rewrite E2 at 1. now rewrite <- app_assoc.
  - exact H2.
  - now rewrite forallb_rev.
Qed.

Lemma trim_trimmed (s : jsstring) : trimmed (trim s).
Proof.
  unfold trim, trimStart, trimEnd. split.
  - intros c. apply dropWhile_head.
  - intros c Hl.
    destruct (dropWhile_split isWhiteSpace
                (rev (dropWhile isWhiteSpace (rev s)))) as (p2 & E2 & _).
    set (t := dropWhile isWhiteSpace (rev s)) in *.
    set (r := dropWhile isWhiteSpace (rev t)) in *.
    assert (Hlast : last (rev t) = Some c).
    { rewrite E2, last_app, Hl. reflexivity. }
    apply (dropWhile_head isWhiteSpace (rev s)). fold t.
    now rewrite <- last_rev_head.
Qed.

(** When the guard of [handleSendMessage] passes, the user message that is
    appended and the query that is sent hold the same text: the input with
    a white-space prefix and a white-space suffix removed, which is not
    empty and neither starts nor ends with white space. The input is
    cleared, the Send button is disabled, the spinner is shown and the
    error panel is not. *)
Theorem sent_text_is_trimmed_input (c : Clock) (s : State) :
  trim (value s) <> [] ->
  isLoading s = false ->
  exists s' r text,
    handleSendMessage c s = (s', Some r) /\
    query r = text /\
    messages s' = messages s ++ [mkMsg (numberToString (dateNow c)) user text
                                       (newDate c) None] /\
    text <> [] /\ trimmed text /\
    (exists pre post,
        value s = pre ++ text ++ post /\
        forallb isWhiteSpace pre = true /\
        forallb isWhiteSpace post = true) /\
    value s' = [] /\ sendDisabled s' = true /\
    thinkingShown s' = true /\ errorPanel s' = None.
Proof.
  intros Hne Hl.
  exists (fst (handleSendMessage c s)), (mkReq (trim (value s)) 5 true),
         (trim (value s)).
  unfold handleSendMessage. apply truthy_true in Hne as Ht.
  rewrite Ht, Hl. simpl.
  repeat split; auto; try apply trim_trimmed.
  apply trim_split.
Qed.

Lemma sent_text_is_trimmed_input_witness :
  let s := setValue (lit "  What is  PSLV? ") (mount (mkClock 0 0)) in
  trim (value s) <> [] /\ isLoading s = false /\
  exists s' r text,
    handleSendMessage (mkClock 5 6) s = (s', Some r) /\ query r = text.
Proof.
  intros s. split; [discriminate|]. split; [reflexivity|].
  destruct (sent_text_is_trimmed_input (mkClock 5 6) s)
    as (s' & r & text & H1 & H2 & _); [discriminate|reflexivity|].
  exists s', r, text. now split.
Defined.

(** ** How the conversation evolves *)

Lemma commit_cells (c : Clock) (old new : State) :
  messages new <> [] ->
  messages (commit c old new) = messages new /\
  error (commit c old new) = error new /\
  value (commit c old new) = value new.
Proof.
  intros Hm. unfold commit.
  set (s := if JS.eqb (value old) (value new) then new else valueEffect new).
  assert (Hs : messages s = messages new /\ error s = error new /\
               value s = value new).
  { subst s. destruct (JS.eqb _ _); [auto|].
    pose proof (valueEffect_frame new) as (Hv & Hms & _ & He). auto. }
  destruct Hs as (Hms & He & Hv).
  destruct (_ =? _)%nat; [auto|].
  rewrite welcomeEffect_nonempty by congruence. auto.
Qed.

Lemma handleKeyDown_silent (c : Clock) (key : Key) (shiftKey : bool)
      (s s' : State) :
  handleKeyDown c key shiftKey s = Some (s', None) ->
  messages s' = messages s /\ error s' = error s.
Proof.
  unfold handleKeyDown. destruct (showCommandPalette s).
  - destruct key;
      try destruct (activeSuggestion s >=? 0);
      try destruct (commandSuggestions !! _);
      try discriminate; intros [= <-]; auto.
  - destruct key; try (intros [= <-]; auto; fail).
    destruct (negb shiftKey); [|intros [= <-]; auto].
    destruct (truthy (trim (value s))); [|intros [= <-]; auto].
    destruct (handleSendMessage c s) as [s1 o] eqn:Hh.
    intros [= -> ->].
    apply handleSendMessage_frame in Hh as [_ ->]. auto.
Qed.

Lemma step_update (c : Clock) (ev : Event) (w w' : World) :
  messages (ui w) <> [] ->
  step c ev w = Some w' ->
  Update c (ui w) (ui w') ev.
Proof.
  intros Hm Hstep.
  assert (Hquiet : forall s1 ev0,
             messages s1 = messages (ui w) -> error s1 = error (ui w) ->
             isLoading s1 = isLoading (ui w) ->
             Update c (ui w) (commit c (ui w) s1) ev0).
  { intros s1 ev0 H1 H2 H3.
    destruct (commit_cells c (ui w) s1) as (E1 & E2 & _); [congruence|].
    apply UpdNone; rewrite ?commit_isLoading; congruence. }
  assert (Hsend : forall s1 r ev0,
             handleSendMessage c (ui w) = (s1, Some r) ->
             Update c (ui w) (commit c (ui w) s1) ev0).
  { intros s1 r ev0 Hh.
    pose proof (handleSendMessage_frame _ _ _ _ Hh) as (_ & Hl0 & _).
    apply handleSendMessage_sent in Hh. subst s1.
    match goal with |- Update _ _ (commit _ _ ?n) _ =>
      destruct (commit_cells c (ui w) n) as (E1 & E2 & _) end.
    { simpl. now destruct (messages (ui w)). }
    apply UpdSend; rewrite ?commit_isLoading; auto. }
  destruct ev; unfold step in Hstep.
  - injection Hstep as <-. now apply Hquiet.
  - destruct (handleKeyDown c key shiftKey (ui w)) as [[s1 [r|]]|] eqn:Hk.
    + injection Hstep as <-. simpl.
      apply handleKeyDown_request in Hk. eapply Hsend; eauto.
    + injection Hstep as <-. simpl.
      pose proof (handleKeyDown_frame _ _ _ _ _ _ Hk) as (_ & Hl).
      apply handleKeyDown_silent in Hk as (H1 & H2). now apply Hquiet.
    + injection Hstep as <-. now apply UpdNone.
  - destruct (sendDisabled (ui w)); [injection Hstep as <-; now apply UpdNone|].
    destruct (handleSendMessage c (ui w)) as [s1 [r|]] eqn:Hh.
    + injection Hstep as <-. simpl. eapply Hsend; eauto.
    + injection Hstep as <-. simpl.
      apply handleSendMessage_frame in Hh as (_ & ->). now apply Hquiet.
  - injection Hstep as <-. simpl.
    destruct (commit_cells c (ui w) (clearChat c (ui w))) as (E1 & E2 & _);
      [discriminate|].
    apply UpdClear; rewrite ?commit_isLoading; auto.
  - injection Hstep as <-. now apply Hquiet.
  - destruct (_ <? _)%nat; [|discriminate].
    unfold selectCommandSuggestion in Hstep.
    destruct (commandSuggestions !! index); injection Hstep as <-.
    + now apply Hquiet.
    + now apply UpdNone.
  - injection Hstep as <-. now apply Hquiet.
  - injection Hstep as <-. simpl.
    destruct (commit_cells c (ui w) (setError None (ui w))) as (E1 & E2 & _);
      [exact Hm|].
    apply UpdDismiss; rewrite ?commit_isLoading; auto.
  - injection Hstep as <-. now apply Hquiet.
  - injection Hstep as <-. now apply Hquiet.
  - injection Hstep as <-. now apply Hquiet.
  - destruct (inflight w !! i); [|discriminate].
    injection Hstep as <-. simpl. rewrite settled_commit.
    destruct o; [now apply UpdAnswer | now apply UpdFailure].
Qed.

Lemma numberToString_not_welcome (n : Z) : numberToString n <> lit "welcome".
Proof.
  unfold numberToString. generalize (Z.to_int n). intros i.
  destruct i as [d|d]; [|discriminate].
  destruct d; discriminate.
Qed.

Lemma welcomeFirst_snoc (l : list ChatMessage) (m : ChatMessage) :
  welcomeFirst l -> id m <> lit "welcome" -> welcomeFirst (l ++ [m]).
Proof.
  intros (c & rest & -> & Hr) Hm. exists c, (rest ++ [m]). split.
  - reflexivity.
  - apply Forall_app. split; [exact Hr | now constructor].
Qed.

Lemma welcome_invariants_step (c : Clock) (ev : Event) (w w' : World) :
  welcomeFirst (messages (ui w)) -> quietWhileLoading (ui w) ->
  step c ev w = Some w' ->
  welcomeFirst (messages (ui w')) /\ quietWhileLoading (ui w').
Proof.
  intros Hw Hq Hstep.
  assert (Hm : messages (ui w) <> []).
  { destruct Hw as (c1 & rest & -> & _). discriminate. }
  unfold quietWhileLoading in *.
  pose proof (step_update c ev w w' Hm Hstep) as U. clear Hstep Hm.
  destruct U as [ev E1 E2 E3|ev E0 E1 E2 E3|i r E1 E2 E3|i e E1 E2 E3|E1 E2 E3|E1 E2 E3].
  - rewrite E1. rewrite E2. rewrite E3. split; assumption.
  - rewrite E1. rewrite E2. rewrite E3. split; [|reflexivity].
    apply welcomeFirst_snoc; [exact Hw|]. apply numberToString_not_welcome.
  - rewrite E1. rewrite E2. rewrite E3. split; [|discriminate].
    apply welcomeFirst_snoc; [exact Hw|]. apply numberToString_not_welcome.
  - rewrite E1. rewrite E2. rewrite E3. split; [exact Hw | discriminate].
  - rewrite E1. rewrite E2. rewrite E3. split; [|reflexivity].
    exists c, []. split; [reflexivity | constructor].
  - rewrite E1. rewrite E2. rewrite E3. split; [exact Hw | reflexivity].
Qed.

Lemma welcome_invariants_run (evs : list (Clock * Event)) (w w' : World) :
  welcomeFirst (messages (ui w)) -> quietWhileLoading (ui w) ->
  run evs w = Some w' ->
  welcomeFirst (messages (ui w')) /\ quietWhileLoading (ui w').
Proof.
  revert w. induction evs as [|[c ev] evs IH]; intros w Hw Hq; simpl.
  - intros [= <-]. now split.
  - destruct (step c ev w) as [w1|] eqn:E; [|discriminate].
    destruct (welcome_invariants_step c ev w w1 Hw Hq E). now apply IH.
Qed.

Lemma welcome_invariants_start (c : Clock) :
  welcomeFirst (messages (ui (start c))) /\ quietWhileLoading (ui (start c)).
Proof.
  split.
  - exists c, []. split; [reflexivity | constructor].
  - intros H. reflexivity.
Qed.

(** In every state the component reaches, the conversation is not empty
    and opens with the welcome message; the key "welcome" belongs to that
    first message alone, every other message having a decimal time stamp
    as its id. *)
Theorem conversation_opens_with_welcome
        (c0 : Clock) (evs : list (Clock * Event)) (w : World) :
  run evs (start c0) = Some w ->
  (exists c rest, messages (ui w) = welcomeMessage c :: rest) /\
  (forall i m, messages (ui w) !! i = Some m ->
               (id m = lit "welcome" <-> i = 0%nat)).
Proof.
  intros Hrun.
  destruct (welcome_invariants_start c0) as [H0 Hq0].
  destruct (welcome_invariants_run evs _ _ H0 Hq0 Hrun)
    as [(c & rest & E & Hr) _].
  split; [eauto|]. intros i m. rewrite E. destruct i as [|i]; simpl.
  - intros [= <-]. split; reflexivity.
  - intros Hi. rewrite Forall_lookup in Hr. specialize (Hr i m Hi).
    split; [contradiction | discriminate].
Qed.

Lemma conversation_opens_with_welcome_witness :
  let c := mkClock 100 101 in
  let evs := [(c, Change (lit "What is PSLV?")); (c, ClickSend);
              (c, Settle 0 (Fulfilled (mkResp (lit "A rocket.") [] (lit "m"))));
              (c, ClickClear)] in
  exists w, run evs (start c) = Some w /\
            exists c1 rest, messages (ui w) = welcomeMessage c1 :: rest.
Proof.
  intros c evs. eexists. split; [vm_compute; reflexivity|].
  apply (conversation_opens_with_welcome c evs). vm_compute. reflexivity.
Defined.

(** From a reachable state, one event leaves the conversation as it is,
    or appends exactly one message at its end (the user's message when a
    query is sent, which requires that none is in flight, or the
    assistant's when a query resolves), or, for Clear only, replaces it by
    the welcome message. Earlier messages are never edited or removed
    otherwise. *)
Theorem conversation_grows_or_resets
        (c0 : Clock) (evs : list (Clock * Event)) (w : World) :
  run evs (start c0) = Some w ->
  forall c ev w',
    step c ev w = Some w' ->
    messages (ui w') = messages (ui w) \/
    (isLoading (ui w) = false /\ isLoading (ui w') = true /\
     messages (ui w') = messages (ui w) ++ [userMessage c (ui w)]) \/
    (exists i response,
        ev = Settle i (Fulfilled response) /\
        messages (ui w') = messages (ui w) ++ [assistantMessage c response])
    \/ (ev = ClickClear /\ messages (ui w') = [welcomeMessage c]).
Proof.
  intros Hrun c ev w' Hstep.
  destruct (welcome_invariants_start c0) as [H0 Hq0].
  destruct (welcome_invariants_run evs _ _ H0 Hq0 Hrun)
    as [(c1 & rest & E & _) _].
  assert (Hm : messages (ui w) <> []) by (rewrite E; discriminate).
  pose proof (step_update c ev w w' Hm Hstep) as U. clear Hstep Hm E Hrun.
  destruct U
    as [ev E1 E2 E3|ev E0 E1 E2 E3|i r E1 E2 E3|i e E1 E2 E3|E1 E2 E3|E1 E2 E3].
  - left. exact E1.
  - right. left. split; [exact E0|]. split; [exact E3 | exact E1].
  - right. right. left. exists i, r. split; [reflexivity | exact E1].
  - left. exact E1.
  - right. right. right. split; [reflexivity | exact E1].
  - left. exact E1.
Qed.

Lemma conversation_grows_or_resets_witness :
  let c := mkClock 100 101 in
  let evs := [(c, Change (lit "What is PSLV?"))] in
  exists w w',
    run evs (start c) = Some w /\
    step c ClickSend w = Some w' /\
    (messages (ui w') = messages (ui w) \/
     (isLoading (ui w) = false /\ isLoading (ui w') = true /\
      messages (ui w') = messages (ui w) ++ [userMessage c (ui w)]) \/
     (exists i response,
         ClickSend = Settle i (Fulfilled response) /\
         messages (ui w') = messages (ui w) ++ [assistantMessage c response])
     \/ (ClickSend = ClickClear /\ messages (ui w') = [welcomeMessage c])).
Proof.
  intros c evs. eexists. eexists.
  split; [vm_compute; reflexivity|]. split; [vm_compute; reflexivity|].
  apply (conversation_grows_or_resets c evs); vm_compute; reflexivity.
Defined.

(** In every state the component reaches, no error is recorded while a
    query is in flight: the "Thinking..." row and the error panel are never
    rendered together. *)
Theorem spinner_excludes_error_panel
        (c0 : Clock) (evs : list (Clock * Event)) (w : World) :
  run evs (start c0) = Some w ->
  thinkingShown (ui w) = true ->
  error (ui w) = None /\ errorPanel (ui w) = None.
Proof.
  intros Hrun Hl.
  destruct (welcome_invariants_start c0) as [H0 Hq0].
  destruct (welcome_invariants_run evs _ _ H0 Hq0 Hrun) as [_ Hq].
  unfold errorPanel. rewrite (Hq Hl). now split.
Qed.

Lemma spinner_excludes_error_panel_witness :
  let c := mkClock 100 101 in
  let evs := [(c, Change (lit "a")); (c, ClickSend);
              (c, Settle 0 (Rejected (ThrownError (lit "HTTP 502"))));
              (c, Change (lit "b")); (c, KeyDown Enter false)] in
  exists w, run evs (start c) = Some w /\
            thinkingShown (ui w) = true /\ errorPanel (ui w) = None.
Proof.
  intros c evs. eexists. split; [vm_compute; reflexivity|].
  split; [reflexivity|].
  apply (spinner_excludes_error_panel c evs); vm_compute; reflexivity.
Defined.

(** ** The command palette follows the input *)

Lemma findIndexFrom_first {A} (p : A -> bool) (l : list A) (i : Z) :
  0 <= i ->
  (findIndexFrom p l i = -1 /\ Forall (fun x => p x = false) l) \/
  (exists n x,
      findIndexFrom p l i = i + Z.of_nat n /\
      l !! n = Some x /\ p x = true /\
      forall m y, (m < n)%nat -> l !! m = Some y -> p y = false).
Proof.
  revert i. induction l as [|x l IH]; intros i Hi; simpl.
  - left. split; [reflexivity | constructor].
  - destruct (p x) eqn:Hx.
    + right. exists 0%nat, x. repeat split; [lia|exact Hx|]. intros; lia.
    + destruct (IH (i + 1)) as [[E Hall]|(n & y & E & Hn & Hy & Hlt)]; [lia| |].
      * left. split; [exact E | now constructor].
      * right. exists (S n), y. repeat split; [lia|exact Hn|exact Hy|].
        intros [|m] z Hm; simpl; [now intros [= <-]|].
        apply Hlt. lia.
Qed.

(** The effect on [value] writes two cells only, the palette flag and the
    highlighted suggestion; every other cell of the state is as before. It
    shows the palette exactly when the input starts with "/" and contains
    no space. When it shows it, it highlights the first command whose
    prefix starts with the input, or nothing (-1) if there is no such
    command; when it hides it, the highlight stays as it was. *)
Theorem palette_follows_input (s : State) :
  let s' := valueEffect s in
  let v := value s in
  s' = mkState v (activeSuggestion s') (showCommandPalette s')
               (mousePosition s) (messages s) (isLoading s) (error s)
               (inputFocused s) /\
  showCommandPalette s'
  = startsWith v (lit "/") && negb (includesUnit v 32) /\
  (showCommandPalette s' = false ->
   activeSuggestion s' = activeSuggestion s) /\
  (showCommandPalette s' = true ->
   (activeSuggestion s' = -1 /\
    Forall (fun cmd => startsWith (prefix cmd) v = false) commandSuggestions)
   \/
   (exists n cmd,
       activeSuggestion s' = Z.of_nat n /\
       commandSuggestions !! n = Some cmd /\
       startsWith (prefix cmd) v = true /\
       forall m cmd', (m < n)%nat -> commandSuggestions !! m = Some cmd' ->
                      startsWith (prefix cmd') v = false)).
Proof.
  intros s' v. split.
  { subst s' v. unfold valueEffect.
    destruct (_ && _); [destruct (_ >=? 0)|]; now destruct s. }
  subst s'. unfold valueEffect. fold v.
  destruct (startsWith v (lit "/") && negb (includesUnit v 32)).
  - unfold findIndex. cbn [value setShowCommandPalette].
    set (p := fun cmd => startsWith (prefix cmd) (value s)).
    pose proof (findIndexFrom_first p commandSuggestions 0 (Z.le_refl 0)) as E.
    set (r := findIndexFrom p commandSuggestions 0) in *. clearbody r.
    destruct (r >=? 0) eqn:G.
    + split; [reflexivity|]. split; [discriminate|]. intros _.
      destruct E as [[E _]|(n & x & E & Hn & Hx & Hlt)]; [lia|].
      right. exists n, x. cbn. repeat split; auto.
    + split; [reflexivity|]. split; [discriminate|]. intros _.
      destruct E as [[E Hall]|(n & x & E & _)]; [|lia].
      left. split; [reflexivity | exact Hall].
  - split; [reflexivity|]. split; [reflexivity | discriminate].
Qed.

Lemma palette_follows_input_witness :
  let s := setValue (lit "/s") (mount (mkClock 0 0)) in
  showCommandPalette (valueEffect s) = true /\
  (activeSuggestion (valueEffect s) = -1 \/
   exists n cmd,
     activeSuggestion (valueEffect s) = Z.of_nat n /\
     commandSuggestions !! n = Some cmd).
Proof.
  intros s. split; [reflexivity|].
  destruct (palette_follows_input s) as (_ & _ & _ & H).
  destruct (H eq_refl) as [[E _]|(n & cmd & E & Hn & _)];
    [left; exact E | right; eauto].
Defined.

(** ** Keys and suggestions *)

Lemma valueEffect_space (s : State) :
  includesUnit (value s) 32 = true ->
  valueEffect s = setShowCommandPalette (fun _ => false) s.
Proof.
  intros H. unfold valueEffect. now rewrite H, andb_false_r.
Qed.

Lemma includesUnit_snoc_space (p : jsstring) :
  includesUnit (p ++ lit " ") 32 = true.
Proof.
  unfold includesUnit. rewrite existsb_app. simpl. apply orb_true_r.
Qed.

Lemma active_suggestion_exists (a : Z) :
  activeOk a -> 0 <= a ->
  exists cmd, commandSuggestions !! Z.to_nat a = Some cmd.
Proof.
  unfold activeOk. change suggestionCount with 4. intros H H0.
  apply lookup_lt_is_Some_2.
  change (length commandSuggestions) with 4%nat. lia.
Qed.

(** In a reachable state with the palette shown and a suggestion
    highlighted, Tab and Enter put the highlighted command's prefix
    followed by one space into the input and close the palette, which stays
    closed after the render; no query is sent and the conversation is
    untouched. *)
Theorem tab_or_enter_completes_command
        (c0 : Clock) (evs : list (Clock * Event)) (w : World) :
  run evs (start c0) = Some w ->
  showCommandPalette (ui w) = true ->
  0 <= activeSuggestion (ui w) ->
  forall c key shiftKey,
    key = Tab \/ key = Enter ->
    exists cmd w',
      commandSuggestions !! Z.to_nat (activeSuggestion (ui w)) = Some cmd /\
      step c (KeyDown key shiftKey) w = Some w' /\
      value (ui w') = prefix cmd ++ lit " " /\
      showCommandPalette (ui w') = false /\
      activeSuggestion (ui w') = activeSuggestion (ui w) /\
      messages (ui w') = messages (ui w) /\
      isLoading (ui w') = isLoading (ui w) /\
      inflight w' = inflight w.
Proof.
  intros Hrun Hp Ha c key shiftKey Hkey.
  pose proof (Inv_run evs _ _ (Inv_start c0) Hrun) as [_ Hok].
  destruct (active_suggestion_exists _ Hok Ha) as [cmd Hcmd].
  exists cmd.
  set (s1 := setShowCommandPalette (fun _ => false)
               (setValue (prefix cmd ++ lit " ") (ui w))).
  exists (mkWorld (commit c (ui w) s1) (inflight w)).
  assert (Hge : (activeSuggestion (ui w) >=? 0) = true) by lia.
  split; [exact Hcmd|]. split.
  { unfold step, handleKeyDown. rewrite Hp.
    destruct Hkey as [-> | ->]; rewrite Hge, Hcmd; now rewrite app_nil_r. }
  assert (Hc : commit c (ui w) s1 = s1).
  { unfold commit. destruct (JS.eqb _ _).
    - now rewrite Nat.eqb_refl.
    - rewrite valueEffect_space by apply includesUnit_snoc_space.
      simpl. now rewrite Nat.eqb_refl. }
  cbn [ui inflight]. rewrite Hc. now repeat split.
Qed.

Lemma tab_or_enter_completes_command_witness :
  let c := mkClock 100 101 in
  let evs := [(c, Change (lit "/sat"))] in
  exists w,
    run evs (start c) = Some w /\
    showCommandPalette (ui w) = true /\ 0 <= activeSuggestion (ui w) /\
    exists cmd w',
      commandSuggestions !! Z.to_nat (activeSuggestion (ui w)) = Some cmd /\
      step c (KeyDown Tab false) w = Some w' /\
      value (ui w') = prefix cmd ++ lit " " /\
      showCommandPalette (ui w') = false /\
      activeSuggestion (ui w') = activeSuggestion (ui w) /\
      messages (ui w') = messages (ui w) /\
      isLoading (ui w') = isLoading (ui w) /\
      inflight w' = inflight w.
Proof.
  intros c evs. eexists.
  split; [vm_compute; reflexivity|].
  split; [reflexivity|]. split; [discriminate|].
  apply (tab_or_enter_completes_command c evs).
  - vm_compute. reflexivity.
  - reflexivity.
  - discriminate.
  - left. reflexivity.
Defined.

(** A key press sends a query exactly when the key is Enter without Shift,
    the palette is hidden, the trimmed input is not empty and no query is
    loading: under these conditions the handler does send, and it sends
    under no others. What it sends and the state it leaves are those of
    [handleSendMessage]: the query is the trimmed input with [max_results]
    5 and [include_metadata] true. In particular Enter with the palette
    shown never sends. *)
Theorem key_press_sends_iff
        (c : Clock) (key : Key) (shiftKey : bool) (s : State) :
  ((exists s' r, handleKeyDown c key shiftKey s = Some (s', Some r)) <->
   (key = Enter /\ shiftKey = false /\ showCommandPalette s = false /\
    trim (value s) <> [] /\ isLoading s = false)) /\
  (forall s' r,
      handleKeyDown c key shiftKey s = Some (s', Some r) ->
      handleSendMessage c s = (s', Some r) /\
      r = mkReq (trim (value s)) 5 true).
Proof.
  assert (Hreq : forall s' r,
             handleKeyDown c key shiftKey s = Some (s', Some r) ->
             handleSendMessage c s = (s', Some r) /\
             r = mkReq (trim (value s)) 5 true /\
             trim (value s) <> [] /\ isLoading s = false).
  { intros s' r H. apply handleKeyDown_request in H as Hh.
    split; [exact Hh|].
    apply (handleSendMessage_request c s r). now rewrite Hh. }
  split; [split|].
  - intros (s' & r & H).
    destruct (Hreq s' r H) as (_ & _ & Hne & Hl).
    unfold handleKeyDown in H.
    destruct (showCommandPalette s).
    + destruct key; try discriminate;
        destruct (activeSuggestion s >=? 0); try discriminate;
        destruct (commandSuggestions !! _); discriminate.
    + destruct key; try discriminate. destruct shiftKey; [discriminate|].
      now repeat split.
  - intros (-> & -> & Hp & Hne & Hl).
    exists (fst (handleSendMessage c s)), (mkReq (trim (value s)) 5 true).
    unfold handleKeyDown. rewrite Hp. cbn [negb].
    apply truthy_true in Hne as Ht. rewrite Ht.
    unfold handleSendMessage. rewrite Ht, Hl. reflexivity.
  - intros s' r H. destruct (Hreq s' r H) as (H1 & H2 & _). now split.
Qed.

Lemma key_press_sends_iff_witness :
  let s := setValue (lit " What is PSLV? ") (mount (mkClock 0 0)) in
  exists s' r,
    handleKeyDown (mkClock 5 6) Enter false s = Some (s', Some r) /\
    r = mkReq (lit "What is PSLV?") 5 true.
Proof.
  intros s.
  destruct (key_press_sends_iff (mkClock 5 6) Enter false s) as [[_ Hif] Hreq].
  destruct Hif as (s' & r & H).
  { repeat split; discriminate. }
  exists s', r. split; [exact H|].
  destruct (Hreq s' r H) as [_ ->]. reflexivity.
Defined.

(** In every reachable state the key handler runs to completion whatever
    the key: the suggestion it indexes exists. A click on a suggestion
    entry likewise finds its command, for each of the four entries and for
    no other index. *)
Theorem handlers_do_not_throw
        (c0 : Clock) (evs : list (Clock * Event)) (w : World) :
  run evs (start c0) = Some w ->
  (forall c key shiftKey, is_Some (handleKeyDown c key shiftKey (ui w))) /\
  (forall index,
      is_Some (selectCommandSuggestion index (ui w)) <-> (index < 4)%nat).
Proof.
  intros Hrun.
  pose proof (Inv_run evs _ _ (Inv_start c0) Hrun) as [_ Hok].
  split.
  - intros c key shiftKey. unfold handleKeyDown.
    destruct (showCommandPalette (ui w)).
    + destruct key; try (eexists; reflexivity).
      all: destruct (activeSuggestion (ui w) >=? 0) eqn:G;
        [|eexists; reflexivity].
      all: destruct (active_suggestion_exists _ Hok) as [cmd ->]; [lia|].
      all: eexists; reflexivity.
    + destruct key; try (eexists; reflexivity).
      destruct (negb shiftKey), (truthy (trim (value (ui w))));
        eexists; reflexivity.
  - intros index. unfold selectCommandSuggestion.
    destruct (commandSuggestions !! index) eqn:E.
    + split; [|eauto]. intros _. apply lookup_lt_Some in E. exact E.
    + split; [intros [x Hx]; discriminate|].
      intros Hlt. apply lookup_ge_None in E.
      change (length commandSuggestions) with 4%nat in E. lia.
Qed.

Lemma handlers_do_not_throw_witness :
  let c := mkClock 100 101 in
  let evs := [(c, Change (lit "/zzz")); (c, KeyDown ArrowUp false)] in
  exists w, run evs (start c) = Some w /\
            is_Some (handleKeyDown c Enter false (ui w)).
Proof.
  intros c evs. eexists. split; [vm_compute; reflexivity|].
  apply (handlers_do_not_throw c evs); vm_compute; reflexivity.
Defined.

(** Each of the four commands has its question; the fall-through branch of
    the [switch] is not taken for any of them. *)
Lemma suggestionQuery_ready (index : nat) (cmd : CommandSuggestion) :
  commandSuggestions !! index = Some cmd ->
  let q := suggestionQuery (prefix cmd) in
  trim q = q /\ q <> [] /\ startsWith q (lit "/") = false /\
  q <> prefix cmd ++ lit " ".
Proof.
  intros H.
  destruct index as [|[|[|[|index]]]]; try discriminate;
    injection H as <-; vm_compute; repeat split; discriminate.
Qed.

Lemma commit_plain_value (c : Clock) (s : State) (q : jsstring) :
  startsWith q (lit "/") = false ->
  commit c s (setShowCommandPalette (fun _ => false) (setValue q s))
  = setShowCommandPalette (fun _ => false) (setValue q s).
Proof.
  intros H. unfold commit. destruct (JS.eqb _ _).
  - now rewrite Nat.eqb_refl.
  - unfold valueEffect. cbn [value setShowCommandPalette setValue].
    rewrite H. simpl. now rewrite Nat.eqb_refl.
Qed.

(** A click on a suggestion entry replaces the input by that command's
    question, which is not blank and does not start with "/", so the
    palette is closed and stays closed and the Send button is enabled
    unless a query is loading. Nothing is sent by the click itself; a click
    on Send then sends exactly that question. *)
Theorem suggestion_click_prepares_question
        (c : Clock) (w : World) (index : nat) :
  (index < length commandSuggestions)%nat ->
  exists cmd w1,
    commandSuggestions !! index = Some cmd /\
    step c (ClickSuggestion index) w = Some w1 /\
    value (ui w1) = suggestionQuery (prefix cmd) /\
    value (ui w1) <> prefix cmd ++ lit " " /\
    showCommandPalette (ui w1) = false /\
    messages (ui w1) = messages (ui w) /\
    inflight w1 = inflight w /\
    sendDisabled (ui w1) = isLoading (ui w) /\
    (isLoading (ui w) = false ->
     forall c2, exists w2,
       step c2 ClickSend w1 = Some w2 /\
       inflight w2
       = inflight w ++ [mkReq (suggestionQuery (prefix cmd)) 5 true]).
Proof.
  intros Hlt.
  destruct (lookup_lt_is_Some_2 _ _ Hlt) as [cmd Hcmd].
  destruct (suggestionQuery_ready index cmd Hcmd) as (Ht & Hne & Hs & Hd).
  set (q := suggestionQuery (prefix cmd)) in *.
  set (s1 := setShowCommandPalette (fun _ => false) (setValue q (ui w))).
  exists cmd, (mkWorld s1 (inflight w)).
  assert (Htr : truthy (trim q) = true) by (rewrite Ht; now apply truthy_true).
  split; [exact Hcmd|]. split.
  { unfold step. apply Nat.ltb_lt in Hlt. rewrite Hlt.
    unfold selectCommandSuggestion. rewrite Hcmd. cbv beta zeta. fold q.
    now rewrite (commit_plain_value c (ui w) q Hs). }
  repeat split; auto.
  - unfold sendDisabled. cbn [ui]. change (value s1) with q.
    change (isLoading s1) with (isLoading (ui w)).
    rewrite Htr. apply orb_false_r.
  - intros Hl c2.
    assert (Hh : handleSendMessage c2 s1
                 = (fst (handleSendMessage c2 s1), Some (mkReq q 5 true))).
    { unfold handleSendMessage, userMessage. cbn [content].
      change (value s1) with q. change (isLoading s1) with (isLoading (ui w)).
      rewrite Htr, Hl, Ht. reflexivity. }
    exists (mkWorld (commit c2 s1 (fst (handleSendMessage c2 s1)))
                    (inflight w ++ [mkReq q 5 true])).
    split; [|reflexivity].
    unfold step, sendDisabled. cbn [ui inflight].
    change (value s1) with q. change (isLoading s1) with (isLoading (ui w)).
    rewrite Htr, Hl. cbn [orb negb]. now rewrite Hh.
Qed.

Lemma suggestion_click_prepares_question_witness :
  (2 < length commandSuggestions)%nat /\
  exists cmd w1,
    commandSuggestions !! 2%nat = Some cmd /\
    step (mkClock 1 2) (ClickSuggestion 2) (start (mkClock 0 0)) = Some w1 /\
    value (ui w1) = suggestionQuery (prefix cmd).
Proof.
  split; [vm_compute; lia|].
  destruct (suggestion_click_prepares_question
              (mkClock 1 2) (start (mkClock 0 0)) 2)
    as (cmd & w1 & H1 & H2 & H3 & _); [vm_compute; lia|].
  exists cmd, w1. auto.
Defined.

(** Clear does not cancel a query that is in flight: the query stays
    pending and the loading flag stays as it is, and when the query then
    resolves, its answer is appended to the cleared conversation, directly
    after the welcome message and without the question that led to it. *)
Theorem clear_keeps_pending_query
        (c1 c2 : Clock) (w : World) (i : nat) (q : QueryRequest)
        (response : QueryResponse) :
  inflight w !! i = Some q ->
  exists w1 w2,
    step c1 ClickClear w = Some w1 /\
    inflight w1 = inflight w /\
    isLoading (ui w1) = isLoading (ui w) /\
    step c2 (Settle i (Fulfilled response)) w1 = Some w2 /\
    messages (ui w2) = [welcomeMessage c1; assistantMessage c2 response] /\
    inflight w2 = delete i (inflight w).
Proof.
  intros Hq.
  set (w1 := mkWorld (commit c1 (ui w) (clearChat c1 (ui w))) (inflight w)).
  destruct (commit_cells c1 (ui w) (clearChat c1 (ui w))) as (Hm & _);
    [discriminate|].
  exists w1. eexists. split; [reflexivity|].
  split; [reflexivity|].
  split; [cbn [ui w1]; now rewrite commit_isLoading|].
  split.
  { unfold step. cbn [inflight w1]. rewrite Hq. reflexivity. }
  cbn [ui inflight w1]. rewrite settled_commit. simpl. rewrite Hm.
  split; reflexivity.
Qed.

Lemma clear_keeps_pending_query_witness :
  let c := mkClock 100 101 in
  let w := mkWorld (fst (handleSendMessage c
                           (setValue (lit "What is PSLV?") (mount c))))
                   [mkReq (lit "What is PSLV?") 5 true] in
  let response := mkResp (lit "A rocket.") [] (lit "m") in
  inflight w !! 0%nat = Some (mkReq (lit "What is PSLV?") 5 true) /\
  exists w1 w2,
    step c ClickClear w = Some w1 /\
    inflight w1 = inflight w /\
    isLoading (ui w1) = isLoading (ui w) /\
    step c (Settle 0 (Fulfilled response)) w1 = Some w2 /\
    messages (ui w2) = [welcomeMessage c; assistantMessage c response] /\
    inflight w2 = delete 0%nat (inflight w).
Proof.
  intros c w response. split; [reflexivity|].
  apply (clear_keeps_pending_query c c w 0
           (mkReq (lit "What is PSLV?") 5 true) response).
  reflexivity.
Defined.

(** ** Source cards by position *)

(** For an assistant message with documents, the card at position [i] is
    the rendering of the document at position [i] for the first three
    positions and absent beyond them. A card shows the document's content;
    its title is the document's [record_name] when that is a non-empty
    string and otherwise "Document " followed by the one-based position,
    so a title is never empty; the source line is shown exactly when
    [source_file] is a non-empty string. *)
Theorem source_cards_by_position
        (message : ChatMessage) (docs : list RelevantDocument) :
  type message = assistant ->
  View.citedDocuments message = Some docs ->
  exists block : View.SourcesBlock,
    View.sources (View.ChatMessage message) = Some block /\
    forall i : nat,
      ((i < 3)%nat ->
       View.cards block !! i = View.renderCard i <$> docs !! i) /\
      ((3 <= i)%nat -> View.cards block !! i = None) /\
      (forall card,
          View.cards block !! i = Some card ->
          View.card_title card <> [] /\
          exists doc,
            docs !! i = Some doc /\
            View.card_content card = doc_content doc /\
            (forall n, View.metadataField doc (lit "record_name")
                       = Some (VString n) ->
                       n <> [] -> View.card_title card = n) /\
            ((forall n, View.metadataField doc (lit "record_name")
                        = Some (VString n) -> n = []) ->
             View.card_title card
             = lit "Document " ++ numberToString (Z.of_nat i + 1)) /\
            (forall f, View.card_source_file card = Some f <->
                       View.metadataField doc (lit "source_file")
                       = Some (VString f) /\ f <> [])).
Proof.
  intros Ht Hd.
  exists (View.mkSources (length docs)
                         (imap View.renderCard (take 3 docs))).
  split.
  { unfold View.ChatMessage, View.renderSources. cbn [View.sources].
    now rewrite Ht, Hd. }
  intros i. cbn [View.cards]. rewrite list_lookup_imap.
  split; [intros Hi; now rewrite lookup_take_lt|].
  split; [intros Hi; now rewrite lookup_take_ge|].
  intros card Hc.
  destruct (take 3 docs !! i) as [doc|] eqn:E; [|discriminate].
  injection Hc as <-.
  assert (Hdoc : docs !! i = Some doc).
  { destruct (Nat.lt_ge_cases i 3) as [Hi|Hi].
    - now rewrite lookup_take_lt in E.
    - rewrite lookup_take_ge in E by exact Hi. discriminate. }
  unfold View.renderCard. cbn [View.card_title View.card_content
                                View.card_source_file].
  split.
  { unfold View.cardTitle.
    destruct (View.metadataField doc (lit "record_name")) as [[| | |n]|];
      try discriminate.
    destruct n; [discriminate|]. simpl. discriminate. }
  exists doc. split; [exact Hdoc|]. split; [reflexivity|].
  split; [|split].
  - intros n Hn Hne. unfold View.cardTitle. rewrite Hn.
    apply truthy_true in Hne. now rewrite Hne.
  - intros Hall. unfold View.cardTitle.
    destruct (View.metadataField doc (lit "record_name")) as [[| | |n]|];
      try reflexivity.
    now rewrite (Hall n eq_refl).
  - intros f. unfold View.cardSourceFile.
    destruct (View.metadataField doc (lit "source_file")) as [[| | |n]|].
    1-3, 5: split; [discriminate | intros [H _]; discriminate].
    destruct n as [|a n]; simpl.
    + split; [discriminate|]. intros [[= <-] Hne]. congruence.
    + split; [intros [= <-]; split; [reflexivity | discriminate]|].
      now intros [[= <-] _].
Qed.

Lemma source_cards_by_position_witness :
  let named :=
    mkDoc (lit "text") (1 # 2)
          (Some {[ lit "record_name" := VString (lit "Aryabhata") ]}) in
  let plain := mkDoc (lit "other") (3 # 4) None in
  let docs := [named; plain] in
  let message :=
    mkMsg (lit "1") assistant (lit "answer") 0
          (Some (mkMeta (Some docs) None)) in
  type message = assistant /\
  View.citedDocuments message = Some docs /\
  exists block : View.SourcesBlock,
    View.sources (View.ChatMessage message) = Some block /\
    View.cards block !! 1%nat = View.renderCard 1 <$> docs !! 1%nat.
Proof.
  intros named plain docs message.
  split; [reflexivity|]. split; [reflexivity|].
  destruct (source_cards_by_position message docs eq_refl eq_refl)
    as (block & Hs & Hall).
  exists block. split; [exact Hs|].
  apply (Hall 1%nat). lia.
Defined.

(** An answer always comes with its sources block, even when the response
    lists no document: the block then reads "Sources (0)" and has no card.
    The welcome message and the user's messages have no sources block. In
    general the block is absent exactly for user messages and for messages
    without [relevant_documents]. *)
Theorem sources_block_presence
        (c : Clock) (response : QueryResponse) (s : State) :
  let docs := resp_relevant_documents response in
  let s' := handleSendMessage_settled c (Fulfilled response) s in
  (exists m, last (messages s') = Some m /\
             View.sources (View.ChatMessage m)
             = Some (View.mkSources (length docs)
                                    (imap View.renderCard (take 3 docs))) /\
             (docs = [] ->
              View.sources (View.ChatMessage m)
              = Some (View.mkSources 0 []))) /\
  View.sources (View.ChatMessage (welcomeMessage c)) = None /\
  View.sources (View.ChatMessage (userMessage c s)) = None /\
  (forall message,
      View.sources (View.ChatMessage message) = None <->
      type message = user \/ View.citedDocuments message = None).
Proof.
  intros docs s'. split; [|split; [reflexivity|split; [reflexivity|]]].
  - exists (assistantMessage c response). split.
    + subst s'. simpl. apply last_snoc.
    + split; [reflexivity|]. fold docs. intros E.
      unfold View.ChatMessage, View.renderSources. cbn.
      fold docs. now rewrite E.
  - intros message. unfold View.ChatMessage, View.renderSources.
    cbn [View.sources].
    destruct (type message); simpl.
    + split; auto.
    + destruct (View.citedDocuments message).
      * split; [discriminate | intros [H|H]; discriminate].
      * split; auto.
Qed.

(** ** The auto-resizing textarea *)

(** [adjustHeight] does nothing without an element. With one, the height
    it sets is never below [minHeight], is [minHeight] itself on reset, and
    with a [maxHeight] is never above the larger of the two bounds; between
    the bounds it is the scroll height measured after the element was
    collapsed to [minHeight], so the result does not depend on the height
    the element had before and a second call changes nothing. As the chat
    configures the hook the height stays within 60 and 200 pixels. *)
Theorem adjustHeight_clamps
        (minHeight : Z) (maxHeight : option Z) (reset : bool)
        (t : AutoResize.Textarea) :
  AutoResize.adjustHeight minHeight maxHeight reset None = None /\
  exists h,
    AutoResize.adjustHeight minHeight maxHeight reset (Some t)
    = Some (AutoResize.mkTextarea h (AutoResize.scrollHeight t)) /\
    minHeight <= h /\
    (if reset then h = minHeight
     else match maxHeight with
          | Some m =>
              h <= Z.max minHeight m /\
              (minHeight <= AutoResize.scrollHeight t minHeight <= m ->
               h = AutoResize.scrollHeight t minHeight)
          | None => h = Z.max minHeight (AutoResize.scrollHeight t minHeight)
          end) /\
    (forall h0,
        AutoResize.adjustHeight minHeight maxHeight reset
          (Some (AutoResize.setStyleHeight h0 t))
        = AutoResize.adjustHeight minHeight maxHeight reset (Some t)) /\
    AutoResize.adjustHeight minHeight maxHeight reset
      (AutoResize.adjustHeight minHeight maxHeight reset (Some t))
    = AutoResize.adjustHeight minHeight maxHeight reset (Some t) /\
    (minHeight = AutoResize.chatMinHeight ->
     maxHeight = AutoResize.chatMaxHeight -> 60 <= h <= 200).
Proof.
  split; [reflexivity|].
  unfold AutoResize.adjustHeight, AutoResize.setStyleHeight.
  cbn [AutoResize.styleHeight AutoResize.scrollHeight].
  assert (Hchat : forall h : Z,
             minHeight = AutoResize.chatMinHeight ->
             maxHeight = AutoResize.chatMaxHeight ->
             h = (if reset then minHeight
                  else Z.max minHeight
                         (Z.min (AutoResize.scrollHeight t minHeight) 200)) ->
             60 <= h <= 200).
  { unfold AutoResize.chatMinHeight. intros h -> _ ->. destruct reset; lia. }
  destruct reset.
  - exists minHeight. split_and!; try reflexivity; try lia. eauto.
  - destruct maxHeight as [m|].
    + eexists. split_and!; try reflexivity; try lia.
      intros H1 [= ->]. eapply Hchat; eauto.
    + eexists. split_and!; try reflexivity; try lia. intros _ [=].
Qed.

(** ** A reply does not disturb the draft *)

(** When a pending query settles, successfully or not, the text typed in
    the meantime, the palette, the highlighted suggestion, the focus flag
    and the mouse position are as before: only the conversation or the
    error, and the loading flag, change, and the settled query leaves the
    pending ones. *)
Theorem settle_keeps_draft
        (c : Clock) (i : nat) (o : Outcome) (w w' : World) :
  step c (Settle i o) w = Some w' ->
  value (ui w') = value (ui w) /\
  showCommandPalette (ui w') = showCommandPalette (ui w) /\
  activeSuggestion (ui w') = activeSuggestion (ui w) /\
  inputFocused (ui w') = inputFocused (ui w) /\
  mousePosition (ui w') = mousePosition (ui w) /\
  sendDisabled (ui w') = negb (truthy (trim (value (ui w)))) /\
  inflight w' = delete i (inflight w) /\
  is_Some (inflight w !! i).
Proof.
  unfold step. destruct (inflight w !! i) eqn:E; [|discriminate].
  intros [= <-]. cbn [ui inflight]. rewrite settled_commit.
  destruct o; simpl; unfold sendDisabled; simpl; eauto 10.
Qed.

Lemma settle_keeps_draft_witness :
  let c := mkClock 100 101 in
  let w := mkWorld (setValue (lit "next question")
                      (fst (handleSendMessage c
                              (setValue (lit "What is PSLV?") (mount c)))))
                   [mkReq (lit "What is PSLV?") 5 true] in
  let o := Rejected (ThrownOther VNull) in
  exists w', step c (Settle 0 o) w = Some w' /\
             value (ui w') = lit "next question".
Proof.
  intros c w o. eexists. split; [reflexivity|].
  eapply (settle_keeps_draft c 0 o w). reflexivity.
Defined.
